(** * Sethry chat widget: a model of [static/script.js]

    The script wires a text field, a send button and a set of tool buttons
    to one request/response cycle against [/api/consult] and renders the
    transcript into the [chat-messages] container.  Everything the script
    does is a mutation of the document, a reading of the clock, or a call
    into the network, so the model is a state-and-exception monad over a
    record describing the part of the page the script touches. *)

From Stdlib Require Import List Arith NArith Lia Bool String Ascii.
Import ListNotations.

Local Open Scope N_scope.
Local Open Scope list_scope.
Set Warnings "-register-all".

(** ** JavaScript strings

    A JavaScript string is a sequence of 16-bit code units.  [trim],
    [encodeURIComponent] and the regular expression of [formatMessage] are
    all defined on code units, and [encodeURIComponent] is only partial
    because of unpaired surrogates, so the model keeps that representation. *)

Definition jsstring := list N.

(** Literals of the script, written as ASCII text. *)
Fixpoint lit (s : string) : jsstring :=
  match s with
  | EmptyString => []
  | String c r => N_of_ascii c :: lit r
  end.

Definition quote : jsstring := [34].
Definition newline : jsstring := [10].

Fixpoint jsstring_eqb (a b : jsstring) : bool :=
  match a, b with
  | [], [] => true
  | x :: a', y :: b' => (x =? y) && jsstring_eqb a' b'
  | _, _ => false
  end.

(** *** [String.prototype.trim]

    The code units removed by [trim]: ECMAScript WhiteSpace (TAB, VT, FF,
    ZWNBSP and the space separators) and LineTerminator (LF, CR, LS, PS). *)
Definition isWhiteSpace (c : N) : bool :=
  (c =? 0x09) || (c =? 0x0B) || (c =? 0x0C) || (c =? 0x20) || (c =? 0xA0)
  || (c =? 0x1680) || ((0x2000 <=? c) && (c <=? 0x200A))
  || (c =? 0x202F) || (c =? 0x205F) || (c =? 0x3000) || (c =? 0xFEFF)
  || (c =? 0x0A) || (c =? 0x0D) || (c =? 0x2028) || (c =? 0x2029).

Fixpoint trimStart (s : jsstring) : jsstring :=
  match s with
  | [] => []
  | c :: r => if isWhiteSpace c then trimStart r else s
  end.

Definition trimEnd (s : jsstring) : jsstring := rev (trimStart (rev s)).

Definition trim (s : jsstring) : jsstring := trimEnd (trimStart s).

(** *** [encodeURIComponent] *)

(** The characters left as they are: letters, digits and [-_.!~*'()]. *)
Definition isUnescaped (c : N) : bool :=
  ((0x41 <=? c) && (c <=? 0x5A)) || ((0x61 <=? c) && (c <=? 0x7A))
  || ((0x30 <=? c) && (c <=? 0x39))
  || (c =? 0x2D) || (c =? 0x5F) || (c =? 0x2E) || (c =? 0x21) || (c =? 0x7E)
  || (c =? 0x2A) || (c =? 0x27) || (c =? 0x28) || (c =? 0x29).

Definition isLeadSurrogate (c : N) : bool := (0xD800 <=? c) && (c <=? 0xDBFF).
Definition isTrailSurrogate (c : N) : bool := (0xDC00 <=? c) && (c <=? 0xDFFF).

Definition hexDigit (d : N) : N :=
  if d <? 10 then 0x30 + d else 0x41 + (d - 10).

(** [%XX] with upper-case hexadecimal digits. *)
Definition percent (byte : N) : jsstring :=
  [0x25; hexDigit (N.shiftr byte 4); hexDigit (N.land byte 0xF)].

Definition utf8 (cp : N) : list N :=
  if cp <? 0x80 then [cp]
  else if cp <? 0x800 then
    [N.lor 0xC0 (N.shiftr cp 6); N.lor 0x80 (N.land cp 0x3F)]
  else if cp <? 0x10000 then
    [N.lor 0xE0 (N.shiftr cp 12);
     N.lor 0x80 (N.land (N.shiftr cp 6) 0x3F);
     N.lor 0x80 (N.land cp 0x3F)]
  else
    [N.lor 0xF0 (N.shiftr cp 18);
     N.lor 0x80 (N.land (N.shiftr cp 12) 0x3F);
     N.lor 0x80 (N.land (N.shiftr cp 6) 0x3F);
     N.lor 0x80 (N.land cp 0x3F)].

Definition escapeCodePoint (cp : N) : jsstring := flat_map percent (utf8 cp).

Definition pairCodePoint (lead trail : N) : N :=
  (lead - 0xD800) * 0x400 + (trail - 0xDC00) + 0x10000.

(** [None] is the [URIError] the built-in throws on an unpaired surrogate. *)
Fixpoint encodeURIComponent (s : jsstring) : option jsstring :=
  match s with
  | [] => Some []
  | c :: r =>
    if isUnescaped c then option_map (cons c) (encodeURIComponent r)
    else if isTrailSurrogate c then None
    else if isLeadSurrogate c then
      match r with
      | t :: r' =>
        if isTrailSurrogate t
        then option_map (app (escapeCodePoint (pairCodePoint c t)))
                        (encodeURIComponent r')
        else None
      | [] => None
      end
    else option_map (app (escapeCodePoint c)) (encodeURIComponent r)
  end.

(** [String.prototype.isWellFormed]: no unpaired surrogate. *)
Fixpoint isWellFormed (s : jsstring) : bool :=
  match s with
  | [] => true
  | c :: r =>
    if isTrailSurrogate c then false
    else if isLeadSurrogate c then
      match r with
      | t :: r' => isTrailSurrogate t && isWellFormed r'
      | [] => false
      end
    else isWellFormed r
  end.

Definition accepted (o : option jsstring) : bool :=
  match o with
  | Some _ => true
  | None => false
  end.

(** *** The replacement done by [formatMessage]

    [message.replace(/\n/g, '<br>')] on a string: every LINE FEED is
    replaced, left to right; the replacement text has no [$] pattern. *)
Definition br : jsstring := lit "<br>".

Fixpoint replaceNewlines (s : jsstring) : jsstring :=
  match s with
  | [] => []
  | c :: r => if c =? 0x0A then br ++ replaceNewlines r
              else c :: replaceNewlines r
  end.

(** ** Values that reach the script from [response.json()]

    A number is kept as the two things this script can observe of it:
    whether it is a zero (the only falsy numbers a JSON text can denote) and
    the text that string conversion gives it.  An object is the member list
    of the JSON text, in source order; when a name is repeated, the last
    member is the property. *)
Inductive JSValue : Type :=
| JSUndefined
| JSNull
| JSBoolean (b : bool)
| JSNumber (zero : bool) (rendering : jsstring)
| JSString (s : jsstring)
| JSArray (elements : list JSValue)
| JSObject (members : list (jsstring * JSValue)).

(** What a built-in throws; the text of such an error is the engine's. *)
Inductive ErrorKind : Type :=
| URIMalformed
| PropertyOfNullish (base : JSValue) (key : jsstring)
| NotAFunction (key : jsstring)
| NoPrimitiveValue
| NotAChild.

(** What can be thrown or be the reason of a rejected promise: an error
    object of the platform carrying its own message ([fetch] and
    [response.json()] reject with these), or an error raised by a built-in. *)
Inductive JSError : Type :=
| Rejection (message : jsstring)
| Builtin (kind : ErrorKind).

Inductive Completion (A : Type) : Type :=
| Normal (a : A)
| Throw (e : JSError).
Arguments Normal {A} a.
Arguments Throw {A} e.

Definition ToBoolean (v : JSValue) : bool :=
  match v with
  | JSUndefined | JSNull => false
  | JSBoolean b => b
  | JSNumber zero _ => negb zero
  | JSString s => match s with [] => false | _ => true end
  | JSArray _ | JSObject _ => true
  end.

Fixpoint lookupMember (key : jsstring) (members : list (jsstring * JSValue))
  : option JSValue :=
  match members with
  | [] => None
  | (k, v) :: r =>
    match lookupMember key r with
    | Some later => Some later
    | None => if jsstring_eqb k key then Some v else None
    end
  end.

(** [base.key] for the two names the script reads, [error] and [answer]:
    neither is defined by a built-in prototype, so only an object's own
    members can supply them. *)
Definition Get (base : JSValue) (key : jsstring) : Completion JSValue :=
  match base with
  | JSUndefined | JSNull => Throw (Builtin (PropertyOfNullish base key))
  | JSObject members =>
    match lookupMember key members with
    | Some v => Normal v
    | None => Normal JSUndefined
    end
  | _ => Normal JSUndefined
  end.

Definition joinWith (sep : jsstring) (parts : list jsstring) : jsstring :=
  match parts with
  | [] => []
  | p :: r => p ++ flat_map (fun q => sep ++ q) r
  end.

(** String conversion as a template literal performs it.  An array goes
    through [join]; an object built from JSON renders as [[object Object]]
    unless one of its members hides [toString], in which case no primitive
    value can be obtained. *)
Fixpoint ToString (v : JSValue) : option jsstring :=
  match v with
  | JSUndefined => Some (lit "undefined")
  | JSNull => Some (lit "null")
  | JSBoolean b => Some (if b then lit "true" else lit "false")
  | JSNumber _ rendering => Some rendering
  | JSString s => Some s
  | JSArray elements =>
    let fix parts (l : list JSValue) : option (list jsstring) :=
      match l with
      | [] => Some []
      | x :: r =>
        match (match x with
               | JSUndefined | JSNull => Some []
               | _ => ToString x
               end), parts r with
        | Some p, Some ps => Some (p :: ps)
        | _, _ => None
        end
      end in
    option_map (joinWith (lit ",")) (parts elements)
  | JSObject members =>
    match lookupMember (lit "toString") members with
    | Some _ => None
    | None => Some (lit "[object Object]")
    end
  end.

(** ** The page *)

Record Element : Type := {
  node : nat;                 (* identity of the element object *)
  classList : list jsstring;
  id : jsstring;
  innerHTML : jsstring        (* the markup assigned to it *)
}.

(** A tool button, as its click handler reads it. *)
Record Button : Type := {
  dataCategory : JSValue;     (* getAttribute('data-category'): a string or null *)
  textContent : jsstring
}.

(** A request handed to [fetch], with the element its two continuations
    have captured. *)
Record Request : Type := {
  url : jsstring;
  typingIndicator : nat
}.

(** What the engine and the platform decide: the wording of built-in
    errors, and the hour:minute text of the n-th reading of the clock. *)
Record Host : Type := {
  wording : ErrorKind -> jsstring;
  clock : nat -> jsstring
}.

Inductive Display : Type := Visible | DisplayNone.

(** What happens to the page and what is asked of the network, as someone
    watching both would see it.  The page keeps these in the order in which
    they happen, so that the order of the script's effects can be stated. *)
Inductive Effect : Type :=
| ValueSet (value : jsstring)      (* the value of the text field changes *)
| ChildAppended (e : Element)      (* chatMessages.appendChild(e) *)
| ChildRemoved (n : nat)           (* chatMessages.removeChild of element n *)
| Requested (address : jsstring)   (* fetch(address) *)
| GreetingHidden.                  (* greetingElement.style.display = 'none' *)

Record World : Type := {
  host : Host;
  clockReads : nat;
  nextNode : nat;
  userInput : jsstring;              (* userInput.value *)
  chatMessages : list Element;       (* chatMessages.children *)
  greetingElement : option Display;  (* None when the page has no greeting *)
  inFlight : list Request;
  history : list Effect              (* the effects so far, oldest first *)
}.

Definition errorMessage (h : Host) (e : JSError) : jsstring :=
  match e with
  | Rejection message => message
  | Builtin kind => wording h kind
  end.

(** ** Effects *)

Definition M (A : Type) : Type := World -> Completion A * World.

Definition ret {A} (a : A) : M A := fun w => (Normal a, w).

Definition bind {A B} (m : M A) (k : A -> M B) : M B :=
  fun w => match m w with
           | (Normal a, w') => k a w'
           | (Throw e, w') => (Throw e, w')
           end.

Definition throw {A} (e : JSError) : M A := fun w => (Throw e, w).

(** [m.catch(h)], and equally a rejection reaching the next [catch] of a
    promise chain. *)
Definition catch {A} (m : M A) (h : JSError -> M A) : M A :=
  fun w => match m w with
           | (Normal a, w') => (Normal a, w')
           | (Throw e, w') => h e w'
           end.

Definition lift {A} (c : Completion A) : M A := fun w => (c, w).

Definition liftOr {A} (kind : ErrorKind) (o : option A) : M A :=
  match o with
  | Some a => ret a
  | None => throw (Builtin kind)
  end.

Notation "x <- m ;; k" := (bind m (fun x => k))
  (at level 61, m at next level, right associativity).
Notation "m ;; k" := (bind m (fun _ => k))
  (at level 61, right associativity).

Definition getHost : M Host := fun w => (Normal (host w), w).

Definition setUserInput (v : jsstring) : M unit := fun w =>
  (Normal tt,
   {| host := host w; clockReads := clockReads w; nextNode := nextNode w;
      userInput := v; chatMessages := chatMessages w;
      greetingElement := greetingElement w; inFlight := inFlight w;
      history := history w ++ [ValueSet v] |}).

Definition setChildren (l : list Element) (w : World) : World :=
  {| host := host w; clockReads := clockReads w; nextNode := nextNode w;
     userInput := userInput w; chatMessages := l;
     greetingElement := greetingElement w; inFlight := inFlight w;
     history := history w |}.

Definition setInFlight (l : list Request) (w : World) : World :=
  {| host := host w; clockReads := clockReads w; nextNode := nextNode w;
     userInput := userInput w; chatMessages := chatMessages w;
     greetingElement := greetingElement w; inFlight := l;
     history := history w |}.

(** More effects seen. *)
Definition seen (effects : list Effect) (w : World) : World :=
  {| host := host w; clockReads := clockReads w; nextNode := nextNode w;
     userInput := userInput w; chatMessages := chatMessages w;
     greetingElement := greetingElement w; inFlight := inFlight w;
     history := history w ++ effects |}.

(** One more effect seen. *)
Definition noted (effect : Effect) (w : World) : World :=
  {| host := host w; clockReads := clockReads w; nextNode := nextNode w;
     userInput := userInput w; chatMessages := chatMessages w;
     greetingElement := greetingElement w; inFlight := inFlight w;
     history := history w ++ [effect] |}.

(** [document.createElement]: a new element object. *)
Definition createElement : M nat := fun w =>
  (Normal (nextNode w),
   {| host := host w; clockReads := clockReads w; nextNode := S (nextNode w);
      userInput := userInput w; chatMessages := chatMessages w;
      greetingElement := greetingElement w; inFlight := inFlight w;
      history := history w |}).

(** [new Date().toLocaleTimeString([], { hour: '2-digit', minute: '2-digit' })] *)
Definition localeTime : M jsstring := fun w =>
  (Normal (clock (host w) (clockReads w)),
   {| host := host w; clockReads := S (clockReads w); nextNode := nextNode w;
      userInput := userInput w; chatMessages := chatMessages w;
      greetingElement := greetingElement w; inFlight := inFlight w;
      history := history w |}).

(** [chatMessages.appendChild] of an element that has just been created.
    The scroll position the script sets after each append is a matter of
    layout and has no counterpart in the record. *)
Definition appendChild (e : Element) : M unit := fun w =>
  (Normal tt, noted (ChildAppended e) (setChildren (chatMessages w ++ [e]) w)).

Definition isChild (n : nat) (l : list Element) : bool :=
  existsb (fun e => Nat.eqb (node e) n) l.

(** [element.parentNode], as a truth value: the container is the only
    parent an element of this script ever has. *)
Definition parentNode (n : nat) : M bool := fun w =>
  (Normal (isChild n (chatMessages w)), w).

(** The children that are left when the element [n] is taken out. *)
Definition detach (n : nat) (l : list Element) : list Element :=
  filter (fun e => negb (Nat.eqb (node e) n)) l.

(** [parent.removeChild(child)] throws when [child] is not a child. *)
Definition removeChild (n : nat) : M unit := fun w =>
  if isChild n (chatMessages w)
  then (Normal tt,
        noted (ChildRemoved n) (setChildren (detach n (chatMessages w)) w))
  else (Throw (Builtin NotAChild), w).

(** [fetch(url)] followed by [.then(...).then(...).catch(...)]: the request
    is in flight and its continuations wait for it to settle. *)
Definition fetch (u : jsstring) (indicator : nat) : M unit := fun w =>
  (Normal tt,
   noted (Requested u)
     (setInFlight
        (inFlight w ++ [{| url := u; typingIndicator := indicator |}]) w)).

Definition getUserInput : M jsstring := fun w => (Normal (userInput w), w).

(** ** The script *)

Inductive Sender : Type := user | ai.

(** The second argument of [addMessageToChat] as the script writes it. *)
Definition senderName (sender : Sender) : jsstring :=
  match sender with
  | user => lit "user"
  | ai => lit "ai"
  end.

(** A line break of a template literal and the indentation after it. *)
Definition indent (n : nat) : jsstring := newline ++ repeat 0x20 n.

Definition openTag (tag className : string) : jsstring :=
  lit "<" ++ lit tag ++ lit " class=" ++ quote ++ lit className ++ quote
  ++ lit ">".

(** The template literal of lines 95-101. *)
Definition messageMarkup (sender : Sender) (timestamp content : jsstring)
  : jsstring :=
  indent 12 ++ openTag "div" "message-header"
  ++ indent 16 ++ lit "<span>"
  ++ (match sender with user => lit "You" | ai => lit "Sethry" end)
  ++ lit "</span>"
  ++ indent 16 ++ openTag "span" "message-time" ++ timestamp ++ lit "</span>"
  ++ indent 12 ++ lit "</div>"
  ++ indent 12 ++ openTag "div" "message-content" ++ content ++ lit "</div>"
  ++ indent 8.

(** The template literal of lines 115-122. *)
Definition typingMarkup : jsstring :=
  indent 12 ++ openTag "div" "typing-dots"
  ++ indent 16 ++ lit "<span></span>"
  ++ indent 16 ++ lit "<span></span>"
  ++ indent 16 ++ lit "<span></span>"
  ++ indent 12 ++ lit "</div>"
  ++ indent 12 ++ lit "<span>Thinking...</span>"
  ++ indent 8.

(** [message.replace(/\n/g, '<br>')]: only a string has a [replace] to
    call. *)
Definition formatMessage (message : JSValue) : M jsstring :=
  match message with
  | JSString s => ret (replaceNewlines s)
  | JSUndefined | JSNull =>
    throw (Builtin (PropertyOfNullish message (lit "replace")))
  | _ => throw (Builtin (NotAFunction (lit "replace")))
  end.

Definition messageElement (n : nat) (sender : Sender)
  (timestamp content : jsstring) : Element :=
  {| node := n;
     classList := [lit "message"; senderName sender];
     id := [];
     innerHTML := messageMarkup sender timestamp content |}.

Definition addMessageToChat (message : JSValue) (sender : Sender) : M unit :=
  n <- createElement ;;
  timestamp <- localeTime ;;
  content <- formatMessage message ;;
  appendChild (messageElement n sender timestamp content).

Definition typingElement (n : nat) : Element :=
  {| node := n;
     classList := [lit "typing-indicator"];
     id := lit "typing-indicator";
     innerHTML := typingMarkup |}.

Definition addTypingIndicator : M nat :=
  n <- createElement ;;
  appendChild (typingElement n) ;;
  ret n.

Definition consultUrl (question category : jsstring) : jsstring :=
  lit "/api/consult?question=" ++ question ++ lit "&category=" ++ category.

(** Lines 66-68, and again lines 79-81. *)
Definition removeTypingIndicator (typingIndicator : nat) : M unit :=
  attached <- parentNode typingIndicator ;;
  if attached then removeChild typingIndicator else ret tt.

(** The continuation of lines 64-76. *)
Definition onData (data : JSValue) (typingIndicator : nat) : M unit :=
  removeTypingIndicator typingIndicator ;;
  error <- lift (Get data (lit "error")) ;;
  if ToBoolean error then
    error <- lift (Get data (lit "error")) ;;
    text <- liftOr NoPrimitiveValue (ToString error) ;;
    addMessageToChat (JSString (lit "Error: " ++ text)) ai
  else
    answer <- lift (Get data (lit "answer")) ;;
    addMessageToChat answer ai.

(** The continuation of lines 77-85. *)
Definition onError (error : JSError) (typingIndicator : nat) : M unit :=
  removeTypingIndicator typingIndicator ;;
  h <- getHost ;;
  addMessageToChat (JSString (lit "Network error: " ++ errorMessage h error)) ai.

Definition sendQuestion (question : jsstring) (category : JSValue) : M unit :=
  setUserInput [] ;;
  addMessageToChat (JSString question) user ;;
  typingIndicator <- addTypingIndicator ;;
  q <- liftOr URIMalformed (encodeURIComponent question) ;;
  c <- liftOr NoPrimitiveValue (ToString category) ;;
  fetch (consultUrl q c) typingIndicator.

Definition sendMessage : M unit :=
  value <- getUserInput ;;
  let question := trim value in
  match question with
  | [] => ret tt
  | _ => sendQuestion question (JSString (lit "general"))
  end.

(** The click handler of a tool button (lines 18-23). *)
Definition toolButtonClick (button : Button) : M unit :=
  let category := dataCategory button in
  let question := textContent button in
  setUserInput question ;;
  sendQuestion question category.

(** The [keypress] handler of the text field (lines 30-34). *)
Definition keypress (key : jsstring) : M unit :=
  if jsstring_eqb key (lit "Enter") then sendMessage else ret tt.

Definition isChatStarted : M bool := fun w =>
  (Normal (Nat.ltb 0 (List.length (chatMessages w))), w).

Definition hideGreeting : M unit := fun w =>
  (Normal tt,
   {| host := host w; clockReads := clockReads w; nextNode := nextNode w;
      userInput := userInput w; chatMessages := chatMessages w;
      greetingElement := option_map (fun _ => DisplayNone) (greetingElement w);
      inFlight := inFlight w;
      history := history w ++ [GreetingHidden] |}).

(** The timer callback of lines 10-14. *)
Definition greetingTimeout : M unit := fun w =>
  match greetingElement w with
  | Some _ =>
    (started <- isChatStarted ;;
     if started then ret tt else hideGreeting) w
  | None => (Normal tt, w)
  end.

(** ** Settlement of a request *)

Inductive Outcome : Type :=
| FetchRejected (message : jsstring)   (* the network call is rejected *)
| JsonRejected (message : jsstring)    (* the body is not JSON *)
| JsonResolved (data : JSValue).

(** The chain [.then(response => response.json()).then(...).catch(...)]:
    a rejection of either promise, and anything thrown by the data
    continuation, reaches the [catch]. *)
Definition settled (o : Outcome) (typingIndicator : nat) : M unit :=
  match o with
  | FetchRejected message => onError (Rejection message) typingIndicator
  | JsonRejected message => onError (Rejection message) typingIndicator
  | JsonResolved data =>
    catch (onData data typingIndicator) (fun e => onError e typingIndicator)
  end.

(** ** The event loop *)

Inductive Event : Type :=
| Typed (text : jsstring)              (* the user edits the text field *)
| SendClick
| KeyPress (key : jsstring)
| ToolClick (button : Button)
| Settle (k : nat) (o : Outcome)       (* the k-th request in flight settles *)
| GreetingTimer.

Fixpoint removeNth {A} (k : nat) (l : list A) : list A :=
  match k, l with
  | _, [] => []
  | O, _ :: r => r
  | S k', x :: r => x :: removeNth k' r
  end.

Definition handle (ev : Event) : M unit :=
  match ev with
  | Typed text => setUserInput text
  | SendClick => sendMessage
  | KeyPress key => keypress key
  | ToolClick button => toolButtonClick button
  | Settle k o => fun w =>
    match nth_error (inFlight w) k with
    | Some r =>
      settled o (typingIndicator r) (setInFlight (removeNth k (inFlight w)) w)
    | None => (Normal tt, w)
    end
  | GreetingTimer => greetingTimeout
  end.

(** An exception leaving a handler is reported by the platform and the
    page goes on from the state the handler left. *)
Definition step (ev : Event) (w : World) : World := snd (handle ev w).

Definition run (evs : list Event) (w : World) : World :=
  fold_left (fun w ev => step ev w) evs w.

(** The page once [DOMContentLoaded] has run the script's set-up: the
    listeners are bound, the timer is pending and the text field has the
    focus (which the record does not track). *)
Definition initial (h : Host) (greeting : option Display) : World :=
  {| host := h; clockReads := 0; nextNode := 0; userInput := [];
     chatMessages := []; greetingElement := greeting; inFlight := [];
     history := [] |}.

(** ** Vocabulary of the statements *)

(** What the guarded removal of lines 66-68 and 79-81 lets be seen: the
    removal of the indicator when it is attached, nothing otherwise. *)
Definition removal (indicator : nat) (w : World) : list Effect :=
  if isChild indicator (chatMessages w) then [ChildRemoved indicator] else [].

(** The page once the guarded removal has run. *)
Definition detached (indicator : nat) (w : World) : World :=
  {| host := host w; clockReads := clockReads w; nextNode := nextNode w;
     userInput := userInput w;
     chatMessages := detach indicator (chatMessages w);
     greetingElement := greetingElement w; inFlight := inFlight w;
     history := history w ++ removal indicator w |}.

(** The page after a settlement has taken the typing indicator out and
    rendered [text] as a message of the assistant.  [aborted] counts the
    renderings given up before it: an [addMessageToChat] that throws has
    already created its element and read the clock. *)
Definition rendered (aborted : nat) (text : jsstring) (indicator : nat)
  (w : World) : World :=
  {| host := host w;
     clockReads := S (aborted + clockReads w);
     nextNode := S (aborted + nextNode w);
     userInput := userInput w;
     chatMessages :=
       detach indicator (chatMessages w)
       ++ [messageElement (aborted + nextNode w) ai
             (clock (host w) (aborted + clockReads w))
             (replaceNewlines text)];
     greetingElement := greetingElement w;
     inFlight := inFlight w;
     history :=
       (history w ++ removal indicator w)
       ++ [ChildAppended
             (messageElement (aborted + nextNode w) ai
                (clock (host w) (aborted + clockReads w))
                (replaceNewlines text))] |}.

(** The page at the moment [sendQuestion] turns to the network: the text
    field is empty, the question is shown and the typing indicator is up. *)
Definition composed (question : jsstring) (w : World) : World :=
  {| host := host w;
     clockReads := S (clockReads w);
     nextNode := S (S (nextNode w));
     userInput := [];
     chatMessages :=
       chatMessages w
       ++ [messageElement (nextNode w) user
             (clock (host w) (clockReads w)) (replaceNewlines question);
           typingElement (S (nextNode w))];
     greetingElement := greetingElement w;
     inFlight := inFlight w;
     history :=
       history w
       ++ [ValueSet [];
           ChildAppended
             (messageElement (nextNode w) user
                (clock (host w) (clockReads w)) (replaceNewlines question));
           ChildAppended (typingElement (S (nextNode w)))] |}.

(** The elements of the container that are messages. *)
Definition isMessage (e : Element) : bool :=
  existsb (jsstring_eqb (lit "message")) (classList e).

Definition messages (w : World) : list Element :=
  filter isMessage (chatMessages w).

(** What every page the script can reach satisfies: element identities are
    below the allocation counter, and no request in flight has captured the
    identity of a message. *)
Record Consistent (w : World) : Prop := {
  children_known :
    Forall (fun e => (node e < nextNode w)%nat) (chatMessages w);
  indicators_known :
    Forall (fun r => (typingIndicator r < nextNode w)%nat) (inFlight w);
  indicators_apart :
    Forall (fun e => isMessage e = true ->
                     Forall (fun r => typingIndicator r <> node e) (inFlight w))
      (chatMessages w)
}.

(** A computation that keeps pages consistent and only ever adds to the
    transcript. *)
Definition Preserves (m : M unit) : Prop :=
  forall w, Consistent w ->
    Consistent (snd (m w))
    /\ exists added, messages (snd (m w)) = messages w ++ added.

(** A host for the examples: the wording of one engine, a stopped clock. *)
Definition sampleHost : Host :=
  {| wording := fun kind =>
       match kind with
       | URIMalformed => lit "URI malformed"
       | PropertyOfNullish base key =>
         lit "Cannot read properties of "
         ++ (match base with JSNull => lit "null" | _ => lit "undefined" end)
         ++ lit " (reading '" ++ key ++ lit "')"
       | NotAFunction key => lit "message." ++ key ++ lit " is not a function"
       | NoPrimitiveValue => lit "Cannot convert object to primitive value"
       | NotAChild => lit "The node to be removed is not a child of this node."
       end;
     clock := fun _ => lit "09:41" |}.

Definition emptyPage : World := initial sampleHost (Some Visible).

(** The page of the examples once [Hi] has been sent from the text field:
    one message of the user, the typing indicator, one request in flight. *)
Definition waitingPage : World :=
  run [Typed (lit "Hi"); SendClick] emptyPage.

(** Inputs of the examples. *)
Definition blankPage : World := step (Typed (lit "   ")) emptyPage.

Definition greetedPage : World := step (Typed (lit "  Hi ")) emptyPage.

(** The text field holding one half of a surrogate pair. *)
Definition surrogatePage : World := step (Typed [0xD83D]) emptyPage.

Definition blankButton : Button :=
  {| dataCategory := JSString (lit "finance"); textContent := lit "  " |}.

Definition researchButton : Button :=
  {| dataCategory := JSString (lit "R&D"); textContent := lit "Hi" |}.

Definition answerMembers : list (jsstring * JSValue) :=
  [(lit "answer", JSString (lit "Track receivables weekly."))].

Definition answerBody : JSValue := JSObject answerMembers.

Definition nullErrorMembers : list (jsstring * JSValue) :=
  [(lit "answer", JSString (lit "ok")); (lit "error", JSNull)].

Definition nullErrorBody : JSValue := JSObject nullErrorMembers.

Definition rateLimitedMembers : list (jsstring * JSValue) :=
  [(lit "error", JSString (lit "rate limited"))].

Definition rateLimitedBody : JSValue := JSObject rateLimitedMembers.

Definition emptyErrorMembers : list (jsstring * JSValue) :=
  [(lit "error", JSString [])].

Definition emptyErrorBody : JSValue := JSObject emptyErrorMembers.

(** Two questions sent one after the other, both still in flight. *)
Definition twoWaiting : World :=
  run [Typed (lit "A"); SendClick; Typed (lit "B"); SendClick] emptyPage.

Definition answered (text : string) : Outcome :=
  JsonResolved (JSObject [(lit "answer", JSString (lit text))]).

(** What [formatMessage] throws on a message that is not a string. *)
Definition replaceFailure (message : JSValue) : ErrorKind :=
  match message with
  | JSUndefined | JSNull => PropertyOfNullish message (lit "replace")
  | _ => NotAFunction (lit "replace")
  end.

Definition isString (v : JSValue) : bool :=
  match v with
  | JSString _ => true
  | _ => false
  end.

Definition emptyObject : JSValue := JSObject [].

Definition isGreetingTimer (ev : Event) : bool :=
  match ev with
  | GreetingTimer => true
  | _ => false
  end.

(** The tool button of the specification's scenario, and one whose markup
    has no [data-category]. *)
Definition taxButton : Button :=
  {| dataCategory := JSString (lit "finance");
     textContent := lit "What tax deductions apply to me?" |}.

Definition bareButton : Button :=
  {| dataCategory := JSNull; textContent := lit "Pricing" |}.

(** A draft in the text field when a tool button is clicked. *)
Definition draftPage : World := step (Typed (lit "my draft")) emptyPage.

(** A text that does not begin with white space. *)
Definition startsClean (s : jsstring) : bool :=
  match s with
  | [] => true
  | c :: _ => negb (isWhiteSpace c)
  end.

(** A code unit is a 16-bit number. *)
Definition isCodeUnit (c : N) : bool := c <? 0x10000.

(** What [encodeURIComponent] can put out: an unreserved character or the
    percent sign of an escape. *)
Definition urlSafe (c : N) : bool := isUnescaped c || (c =? 0x25).

(** Two encodings put end to end, when both exist. *)
Definition appendEncoded (x y : option jsstring) : option jsstring :=
  match x, y with
  | Some p, Some q => Some (p ++ q)
  | _, _ => None
  end.

(** The three ways an event can change the container and the requests:
    not at all, by a submission, or by the settlement of one request. *)
Inductive Shape (w w' : World) : Prop :=
| shape_same :
    nextNode w' = nextNode w ->
    chatMessages w' = chatMessages w ->
    inFlight w' = inFlight w ->
    Shape w w'
| shape_submitted (question : jsstring) (requests : list Request) :
    nextNode w' = S (S (nextNode w)) ->
    chatMessages w'
    = chatMessages w
      ++ [messageElement (nextNode w) user (clock (host w) (clockReads w))
            (replaceNewlines question);
          typingElement (S (nextNode w))] ->
    inFlight w' = inFlight w ++ requests ->
    (requests = []
     \/ exists u, requests
                  = [{| url := u; typingIndicator := S (nextNode w) |}]) ->
    Shape w w'
| shape_settled (k : nat) (r : Request) (aborted : nat)
    (timestamp text : jsstring) :
    nth_error (inFlight w) k = Some r ->
    nextNode w' = S (aborted + nextNode w) ->
    chatMessages w'
    = detach (typingIndicator r) (chatMessages w)
      ++ [messageElement (aborted + nextNode w) ai timestamp
            (replaceNewlines text)] ->
    inFlight w' = removeNth k (inFlight w) ->
    Shape w w'.

(** Identities are not shared, and every request in flight has its own
    typing indicator in the container. *)
Record Tracked (w : World) : Prop := {
  nodes_distinct : NoDup (map node (chatMessages w));
  nodes_known : Forall (fun e => (node e < nextNode w)%nat) (chatMessages w);
  indicators_distinct : NoDup (map typingIndicator (inFlight w));
  indicators_attached :
    Forall (fun r => In (typingElement (typingIndicator r)) (chatMessages w))
      (inFlight w)
}.

(** Two questions sent from the text field, and the request of the
    second. *)
Definition twoQuestions : list Event :=
  [Typed (lit "A"); SendClick; Typed (lit "B"); SendClick].

Definition secondRequest : Request :=
  {| url := lit "/api/consult?question=B&category=general";
     typingIndicator := 3 |}.

(** A typing indicator that no request in flight will ever take out. *)
Record Orphan (n : nat) (w : World) : Prop := {
  orphan_attached : In (typingElement n) (chatMessages w);
  orphan_unclaimed : Forall (fun r => typingIndicator r <> n) (inFlight w);
  orphan_known : (n < nextNode w)%nat
}.

(** What happens on the page of the examples after a question that could
    not be sent. *)
Definition laterEvents : list Event :=
  [Typed (lit "Hi"); SendClick; Settle 0 (answered "ok"); GreetingTimer].

(** The children of the container that carry the [id] of the typing
    indicator. *)
Definition hasIndicatorId (e : Element) : bool :=
  jsstring_eqb (id e) (lit "typing-indicator").

(** An error value that cannot be converted to a string: an object with a
    member named [toString]. *)
Definition opaqueError : JSValue :=
  JSObject [(lit "toString", JSNumber false (lit "1"))].

Definition opaqueErrorMembers : list (jsstring * JSValue) :=
  [(lit "error", opaqueError)].

Definition opaqueErrorBody : JSValue := JSObject opaqueErrorMembers.

(** * Properties *)

(** ** Strings *)

Example encode_scenario :
  encodeURIComponent (lit "How can I improve my cash flow?")
  = Some (lit "How%20can%20I%20improve%20my%20cash%20flow%3F").
Proof. reflexivity. Qed.

Example encode_euro : encodeURIComponent [0x20AC] = Some (lit "%E2%82%AC").
Proof. reflexivity. Qed.

Example encode_pair :
  encodeURIComponent [0xD83D; 0xDE00] = Some (lit "%F0%9F%98%80").
Proof. reflexivity. Qed.

Example encode_lone_surrogate : encodeURIComponent [0xD83D] = None.
Proof. reflexivity. Qed.

Example trim_example : trim (lit "  a b  ") = lit "a b".
Proof. reflexivity. Qed.

Lemma trimStart_shape (s : jsstring) :
  trimStart s = []
  \/ exists c r, trimStart s = c :: r /\ isWhiteSpace c = false.
Proof.
  induction s as [|c r IH]; simpl.
  - now left.
  - destruct (isWhiteSpace c) eqn:E.
    + exact IH.
    + right. now exists c, r.
Qed.

Lemma trimStart_nil (s : jsstring) :
  trimStart s = [] <-> forallb isWhiteSpace s = true.
Proof.
  induction s as [|c r IH]; simpl.
  - tauto.
  - destruct (isWhiteSpace c); simpl.
    + exact IH.
    + split; discriminate.
Qed.

Lemma forallb_rev {A} (f : A -> bool) (l : list A) :
  forallb f (rev l) = forallb f l.
Proof.
  induction l as [|x l IH]; simpl.
  - reflexivity.
  - rewrite forallb_app, IH. simpl.
    rewrite andb_true_r. apply andb_comm.
Qed.

(** [trim] leaves nothing exactly when the text is empty or made of white
    space only. *)
Lemma trim_nil (s : jsstring) :
  trim s = [] <-> forallb isWhiteSpace s = true.
Proof.
  unfold trim, trimEnd. split.
  - intros H.
    assert (H1 : trimStart (rev (trimStart s)) = []).
    { destruct (trimStart (rev (trimStart s))) as [|x l]; [reflexivity|].
      simpl in H. destruct (rev l); discriminate. }
    apply trimStart_nil in H1. rewrite forallb_rev in H1.
    destruct (trimStart_shape s) as [E | (c & r & E & W)].
    + now apply trimStart_nil.
    + rewrite E in H1. simpl in H1. rewrite W in H1. discriminate.
  - intros H. apply trimStart_nil in H. now rewrite H.
Qed.

Lemma whiteSpace_escaped (c : N) :
  isWhiteSpace c = true ->
  isUnescaped c = false /\ isTrailSurrogate c = false
  /\ isLeadSurrogate c = false.
Proof.
  unfold isWhiteSpace, isUnescaped, isTrailSurrogate, isLeadSurrogate.
  intros H.
  repeat rewrite orb_true_iff in H.
  rewrite andb_true_iff in H.
  repeat rewrite N.eqb_eq in H. repeat rewrite N.leb_le in H.
  repeat split;
    repeat (apply orb_false_iff; split);
    try (apply N.eqb_neq; lia);
    apply andb_false_iff;
    destruct (N.le_gt_cases 0xDC00 c), (N.le_gt_cases 0xD800 c),
      (N.le_gt_cases 0x41 c), (N.le_gt_cases 0x61 c), (N.le_gt_cases 0x30 c);
    try (left; apply N.leb_gt; lia); right; apply N.leb_gt; lia.
Qed.

(** White space never stops [encodeURIComponent]. *)
Lemma encode_whiteSpace (s : jsstring) :
  forallb isWhiteSpace s = true ->
  encodeURIComponent s = Some (flat_map escapeCodePoint s).
Proof.
  induction s as [|c r IH]; simpl; intros H.
  - reflexivity.
  - apply andb_true_iff in H. destruct H as [Hc Hr].
    destruct (whiteSpace_escaped c Hc) as (U & T & L).
    rewrite U, T, L, (IH Hr). reflexivity.
Qed.

(** Characters outside the escaped set come through unchanged. *)
Lemma encode_unescaped (s : jsstring) :
  forallb isUnescaped s = true -> encodeURIComponent s = Some s.
Proof.
  induction s as [|c r IH]; simpl; intros H.
  - reflexivity.
  - apply andb_true_iff in H. destruct H as [Hc Hr].
    rewrite Hc, (IH Hr). reflexivity.
Qed.

Lemma unescaped_not_surrogate (c : N) :
  isUnescaped c = true ->
  isTrailSurrogate c = false /\ isLeadSurrogate c = false.
Proof.
  unfold isUnescaped, isTrailSurrogate, isLeadSurrogate. intros H.
  repeat rewrite orb_true_iff in H.
  repeat rewrite andb_true_iff in H.
  repeat rewrite N.eqb_eq in H. repeat rewrite N.leb_le in H.
  split; apply andb_false_iff;
    destruct (N.le_gt_cases 0xDC00 c), (N.le_gt_cases 0xD800 c);
    try (left; apply N.leb_gt; lia); right; apply N.leb_gt; lia.
Qed.

(** Induction that may step over two code units, as the encoder does on a
    surrogate pair. *)
Lemma list_pair_ind {A} (P : list A -> Prop) :
  P [] -> (forall x, P [x]) ->
  (forall x y l, P l -> P (y :: l) -> P (x :: y :: l)) ->
  forall l, P l.
Proof.
  intros H0 H1 H2 l.
  assert (H : P l /\ forall x, P (x :: l)).
  { induction l as [|y l [IHl IHc]]; split; auto. }
  apply H.
Qed.

Lemma accepted_map (f : jsstring -> jsstring) (o : option jsstring) :
  accepted (option_map f o) = accepted o.
Proof. now destruct o. Qed.

(** [encodeURIComponent] throws exactly on the strings that are not
    well-formed UTF-16. *)
Lemma encode_accepts (s : jsstring) :
  accepted (encodeURIComponent s) = isWellFormed s.
Proof.
  induction s as [| x | x y l IHl IHc] using list_pair_ind.
  - reflexivity.
  - cbn. destruct (isUnescaped x) eqn:U.
    + destruct (unescaped_not_surrogate x U) as [T L]. now rewrite T, L.
    + destruct (isTrailSurrogate x); [reflexivity|].
      destruct (isLeadSurrogate x); reflexivity.
  - cbn [encodeURIComponent isWellFormed].
    cbn [encodeURIComponent isWellFormed] in IHc.
    destruct (isUnescaped x) eqn:U.
    + destruct (unescaped_not_surrogate x U) as [T L]. rewrite T, L.
      now rewrite accepted_map.
    + destruct (isTrailSurrogate x); [reflexivity|].
      destruct (isLeadSurrogate x).
      * destruct (isTrailSurrogate y); [|reflexivity].
        now rewrite accepted_map.
      * now rewrite accepted_map.
Qed.

Lemma encode_wellFormed (s : jsstring) :
  isWellFormed s = true -> exists q, encodeURIComponent s = Some q.
Proof.
  rewrite <- encode_accepts.
  destruct (encodeURIComponent s) as [q|]; [now exists q | discriminate].
Qed.

Lemma replaceNewlines_flat_map (s : jsstring) :
  replaceNewlines s = flat_map (fun c => if c =? 10 then lit "<br>" else [c]) s.
Proof.
  induction s as [|c r IH]; simpl.
  - reflexivity.
  - rewrite IH. now destruct (c =? 10).
Qed.

Lemma replaceNewlines_app (a b : jsstring) :
  replaceNewlines (a ++ b) = replaceNewlines a ++ replaceNewlines b.
Proof.
  induction a as [|c a IH]; simpl.
  - reflexivity.
  - destruct (c =? 10); rewrite IH; reflexivity.
Qed.

Lemma replaceNewlines_plain (s : jsstring) :
  forallb (fun c => negb (c =? 10)) s = true -> replaceNewlines s = s.
Proof.
  induction s as [|c r IH]; simpl; intros H.
  - reflexivity.
  - apply andb_true_iff in H. destruct H as [Hc Hr].
    destruct (c =? 10); [discriminate|]. now rewrite (IH Hr).
Qed.

(** ** The validation of [sendMessage] *)

Lemma sendMessage_blank (w : World) :
  trim (userInput w) = [] -> sendMessage w = (Normal tt, w).
Proof.
  intros H. unfold sendMessage, bind, getUserInput. now rewrite H.
Qed.

(** C3.  When the text field holds nothing but white space (or nothing at
    all), so that trimming leaves the empty string, the send button and the
    Enter key change nothing: no message is appended, no request is issued,
    and the whole page is exactly as it was. *)
Theorem blank_submission_ignored (w : World) :
  trim (userInput w) = [] ->
  sendMessage w = (Normal tt, w)
  /\ handle SendClick w = (Normal tt, w)
  /\ handle (KeyPress (lit "Enter")) w = (Normal tt, w).
Proof.
  intros H.
  pose proof (sendMessage_blank w H) as E.
  repeat split; assumption.
Qed.

Lemma blank_submission_ignored_witness :
  trim (userInput blankPage) = []
  /\ chatMessages (snd (handle SendClick blankPage)) = []
  /\ inFlight (snd (handle (KeyPress (lit "Enter")) blankPage)) = [].
Proof.
  assert (H : trim (userInput blankPage) = []) by reflexivity.
  destruct (blank_submission_ignored blankPage H) as (_ & Hc & Hk).
  rewrite Hc, Hk. repeat split; reflexivity.
Defined.

(** ** Rendering *)

Lemma addMessageToChat_string (s : jsstring) (sender : Sender) (w : World) :
  addMessageToChat (JSString s) sender w
  = (Normal tt,
     {| host := host w;
        clockReads := S (clockReads w);
        nextNode := S (nextNode w);
        userInput := userInput w;
        chatMessages :=
          chatMessages w
          ++ [messageElement (nextNode w) sender
                (clock (host w) (clockReads w)) (replaceNewlines s)];
        greetingElement := greetingElement w;
        inFlight := inFlight w;
        history :=
          history w
          ++ [ChildAppended
                (messageElement (nextNode w) sender
                   (clock (host w) (clockReads w)) (replaceNewlines s))] |}).
Proof. reflexivity. Qed.

(** C9.  The body of a message goes through [formatMessage], which on a
    string never fails and does one thing: each LINE FEED becomes [<br>]
    and every other code unit is copied.  So the replacement commutes with
    concatenation, a text without a line feed is returned as it is,
    whatever markup characters it holds, and the result is placed between
    two fixed pieces of markup that do not depend on it. *)
Theorem formatMessage_only_line_breaks (s : jsstring) (sender : Sender)
  (w : World) :
  formatMessage (JSString s) w = (Normal (replaceNewlines s), w)
  /\ replaceNewlines s
     = flat_map (fun c => if c =? 10 then lit "<br>" else [c]) s
  /\ (forall a b,
        replaceNewlines (a ++ newline ++ b)
        = replaceNewlines a ++ lit "<br>" ++ replaceNewlines b)
  /\ (forallb (fun c => negb (c =? 10)) s = true -> replaceNewlines s = s)
  /\ exists before after,
       (forall timestamp content,
          messageMarkup sender timestamp content
          = before timestamp ++ content ++ after)
       /\ map innerHTML (chatMessages (snd (addMessageToChat (JSString s) sender w)))
          = map innerHTML (chatMessages w)
            ++ [before (clock (host w) (clockReads w))
                ++ replaceNewlines s ++ after].
Proof.
  split; [reflexivity|].
  split; [apply replaceNewlines_flat_map|].
  split; [intros a b; now rewrite replaceNewlines_app|].
  split; [apply replaceNewlines_plain|].
  exists (fun timestamp =>
            indent 12 ++ openTag "div" "message-header"
            ++ indent 16 ++ lit "<span>"
            ++ (match sender with user => lit "You" | ai => lit "Sethry" end)
            ++ lit "</span>"
            ++ indent 16 ++ openTag "span" "message-time" ++ timestamp
            ++ lit "</span>"
            ++ indent 12 ++ lit "</div>"
            ++ indent 12 ++ openTag "div" "message-content"),
         (lit "</div>" ++ indent 8).
  assert (Hm : forall timestamp content,
             messageMarkup sender timestamp content
             = (indent 12 ++ openTag "div" "message-header"
                ++ indent 16 ++ lit "<span>"
                ++ (match sender with user => lit "You" | ai => lit "Sethry" end)
                ++ lit "</span>"
                ++ indent 16 ++ openTag "span" "message-time" ++ timestamp
                ++ lit "</span>"
                ++ indent 12 ++ lit "</div>"
                ++ indent 12 ++ openTag "div" "message-content")
               ++ content ++ lit "</div>" ++ indent 8).
  { intros timestamp content. unfold messageMarkup.
    repeat rewrite <- app_assoc. reflexivity. }
  split; [exact Hm|].
  rewrite addMessageToChat_string. cbn [snd chatMessages].
  rewrite map_app. cbn [map messageElement innerHTML].
  now rewrite Hm.
Qed.

Lemma formatMessage_only_line_breaks_witness :
  forallb (fun c => negb (c =? 10)) (lit "<b>Tom & Jerry</b>") = true
  /\ replaceNewlines (lit "<b>Tom & Jerry</b>") = lit "<b>Tom & Jerry</b>".
Proof.
  split; [reflexivity|].
  exact (proj1 (proj2 (proj2 (proj2
           (formatMessage_only_line_breaks (lit "<b>Tom & Jerry</b>") user
              emptyPage)))) eq_refl).
Defined.

(** ** Submission *)

Lemma sendQuestion_eq (question : jsstring) (category : JSValue) (w : World) :
  sendQuestion question category w
  = match encodeURIComponent question with
    | None => (Throw (Builtin URIMalformed), composed question w)
    | Some q =>
      match ToString category with
      | None => (Throw (Builtin NoPrimitiveValue), composed question w)
      | Some c =>
        fetch (consultUrl q c) (S (nextNode w)) (composed question w)
      end
    end.
Proof.
  unfold sendQuestion, bind, setUserInput.
  rewrite addMessageToChat_string.
  unfold addTypingIndicator, bind, createElement, appendChild, ret. cbn.
  unfold composed, fetch, noted, setInFlight. cbn.
  rewrite <- !app_assoc. cbn.
  destruct (encodeURIComponent question); cbn; [|reflexivity].
  destruct (ToString category); reflexivity.
Qed.

(** C2 (as the code has it).  For a question that [encodeURIComponent]
    accepts, with encoding [q], and a category whose string conversion is
    [c], [sendQuestion] issues exactly one request, to
    [/api/consult?question=q&category=c]: the question is URL-encoded, the
    category is inserted as it is. *)
Theorem consult_request_url (question : jsstring) (category : JSValue)
  (w : World) (q c : jsstring) :
  encodeURIComponent question = Some q ->
  ToString category = Some c ->
  fst (sendQuestion question category w) = Normal tt
  /\ inFlight (snd (sendQuestion question category w))
     = inFlight w
       ++ [{| url := lit "/api/consult?question=" ++ q
                     ++ lit "&category=" ++ c;
              typingIndicator := S (nextNode w) |}].
Proof.
  intros Hq Hc. rewrite sendQuestion_eq, Hq, Hc. split; reflexivity.
Qed.

Lemma consult_request_url_witness :
  encodeURIComponent (lit "How can I improve my cash flow?")
  = Some (lit "How%20can%20I%20improve%20my%20cash%20flow%3F")
  /\ ToString (JSString (lit "general")) = Some (lit "general")
  /\ map url
       (inFlight
          (snd (sendQuestion (lit "How can I improve my cash flow?")
                  (JSString (lit "general")) emptyPage)))
     = [lit "/api/consult?question=How%20can%20I%20improve%20my%20cash%20flow%3F&category=general"].
Proof.
  split; [reflexivity|]. split; [reflexivity|].
  rewrite (proj2 (consult_request_url
                    (lit "How can I improve my cash flow?")
                    (JSString (lit "general")) emptyPage
                    (lit "How%20can%20I%20improve%20my%20cash%20flow%3F")
                    (lit "general") eq_refl eq_refl)).
  reflexivity.
Defined.

(** The category of a tool button goes into the URL unencoded: with
    [data-category="R&D"] the request carries [category=R&D], while the
    URL-encoding of that category is [R%26D]. *)
Lemma category_not_encoded :
  map url (inFlight (step (ToolClick researchButton) emptyPage))
  = [lit "/api/consult?question=Hi&category=R&D"]
  /\ encodeURIComponent (lit "R&D") = Some (lit "R%26D")
  /\ map url (inFlight (step (ToolClick researchButton) emptyPage))
     <> [lit "/api/consult?question=Hi&category=R%26D"].
Proof.
  split; [reflexivity|]. split; [reflexivity|].
  vm_compute. discriminate.
Qed.

(** The scenario of the specification, from the text field to the
    request. *)
Example scenario_request :
  map url
    (inFlight
       (run [Typed (lit "How can I improve my cash flow?"); SendClick]
          emptyPage))
  = [lit "/api/consult?question=How%20can%20I%20improve%20my%20cash%20flow%3F&category=general"].
Proof. reflexivity. Qed.

(** C4 (as the code has it).  When trimming the text field leaves a
    non-empty question, what the handler lets be seen, in this order, is:
    the field is emptied, exactly one message of the user carrying the
    question is appended, exactly one typing indicator is appended, and
    only then, as the last effect, the consult URL is requested.  The three
    effects on the page happen for every question; the request follows for
    every well-formed one, while a question with an unpaired surrogate
    stops at [encodeURIComponent] with nothing requested. *)
Theorem submission_effects_precede_request (w : World) :
  trim (userInput w) <> [] ->
  let question := trim (userInput w) in
  let n := nextNode w in
  let shown := messageElement n user (clock (host w) (clockReads w))
                 (replaceNewlines question) in
  let after := snd (sendMessage w) in
  history after
  = history w
    ++ [ValueSet []; ChildAppended shown; ChildAppended (typingElement (S n))]
    ++ match encodeURIComponent question with
       | Some q => [Requested (consultUrl q (lit "general"))]
       | None => []
       end
  /\ userInput after = []
  /\ chatMessages after = chatMessages w ++ [shown; typingElement (S n)]
  /\ (isWellFormed question = true ->
      exists q,
        encodeURIComponent question = Some q
        /\ fst (sendMessage w) = Normal tt
        /\ history after
           = history w
             ++ [ValueSet []; ChildAppended shown;
                 ChildAppended (typingElement (S n));
                 Requested (consultUrl q (lit "general"))]
        /\ inFlight after
           = inFlight w
             ++ [{| url := consultUrl q (lit "general");
                    typingIndicator := S n |}]).
Proof.
  intros Hq.
  assert (Hs : sendMessage w
               = sendQuestion (trim (userInput w)) (JSString (lit "general")) w).
  { unfold sendMessage, bind, getUserInput. cbv beta iota.
    destruct (trim (userInput w)); [contradiction | reflexivity]. }
  intros question n shown after. unfold after.
  rewrite Hs, sendQuestion_eq. fold question. cbn [ToString].
  destruct (encodeURIComponent question) as [q|] eqn:Eq.
  - cbn [fst snd fetch noted setInFlight composed history userInput
         chatMessages inFlight].
    fold n. fold shown.
    split; [now rewrite <- app_assoc|].
    split; [reflexivity|]. split; [reflexivity|].
    intros _. exists q. split; [reflexivity|]. split; [reflexivity|].
    split; [now rewrite <- app_assoc | reflexivity].
  - cbn [fst snd composed history userInput chatMessages inFlight].
    fold n. fold shown.
    split; [reflexivity|]. split; [reflexivity|]. split; [reflexivity|].
    intros Hwf. pose proof (encode_accepts question) as Ha.
    rewrite Eq, Hwf in Ha. discriminate.
Qed.

Lemma submission_effects_precede_request_witness :
  trim (userInput greetedPage) <> []
  /\ isWellFormed (trim (userInput greetedPage)) = true
  /\ exists q,
       encodeURIComponent (trim (userInput greetedPage)) = Some q
       /\ history (snd (sendMessage greetedPage))
          = history greetedPage
            ++ [ValueSet [];
                ChildAppended
                  (messageElement (nextNode greetedPage) user
                     (clock (host greetedPage) (clockReads greetedPage))
                     (replaceNewlines (trim (userInput greetedPage))));
                ChildAppended (typingElement (S (nextNode greetedPage)));
                Requested (consultUrl q (lit "general"))].
Proof.
  assert (H : trim (userInput greetedPage) <> []) by discriminate.
  split; [exact H|]. split; [reflexivity|].
  destruct (submission_effects_precede_request greetedPage H)
    as (_ & _ & _ & Hw).
  destruct (Hw eq_refl) as (q & Hq & _ & Hh & _).
  exists q. split; [exact Hq | exact Hh].
Defined.

(** What is seen when [Hi] is sent from the text field. *)
Example submission_history :
  history (run [Typed (lit "  Hi "); SendClick] emptyPage)
  = [ValueSet (lit "  Hi ");
     ValueSet [];
     ChildAppended (messageElement 0 user (lit "09:41") (lit "Hi"));
     ChildAppended (typingElement 1);
     Requested (lit "/api/consult?question=Hi&category=general")].
Proof. reflexivity. Qed.

(** A question that is one unpaired surrogate: it is shown, the typing
    indicator goes up, and [encodeURIComponent] throws; no request is
    issued. *)
Lemma lone_surrogate_not_sent :
  trim (userInput surrogatePage) = [0xD83D]
  /\ fst (handle SendClick surrogatePage) = Throw (Builtin URIMalformed)
  /\ chatMessages (step SendClick surrogatePage)
     = [messageElement 0 user (lit "09:41") [0xD83D]; typingElement 1]
  /\ inFlight (step SendClick surrogatePage) = [].
Proof. repeat split; reflexivity. Qed.

(** C10.  The click handler of a tool button does not validate: whatever
    the label, it is shown untrimmed as a message of the user, followed by
    the typing indicator.  When the label is empty or white space only, the
    request is issued all the same, while the same text in the text field
    is ignored by the send button. *)
Theorem shortcut_skips_validation (button : Button) (w : World) :
  let label := textContent button in
  chatMessages (snd (toolButtonClick button w))
  = chatMessages w
    ++ [messageElement (nextNode w) user (clock (host w) (clockReads w))
          (replaceNewlines label);
        typingElement (S (nextNode w))]
  /\ forall c,
       forallb isWhiteSpace label = true ->
       ToString (dataCategory button) = Some c ->
       fst (toolButtonClick button w) = Normal tt
       /\ inFlight (snd (toolButtonClick button w))
          = inFlight w
            ++ [{| url := consultUrl (flat_map escapeCodePoint label) c;
                   typingIndicator := S (nextNode w) |}]
       /\ sendMessage (snd (setUserInput label w))
          = (Normal tt, snd (setUserInput label w)).
Proof.
  intros label. unfold toolButtonClick, bind. cbn [setUserInput].
  rewrite sendQuestion_eq. fold label. split.
  - destruct (encodeURIComponent label); [destruct (ToString _)|]; reflexivity.
  - intros c Hw Hc. rewrite (encode_whiteSpace label Hw), Hc.
    split; [reflexivity|]. split; [reflexivity|].
    apply sendMessage_blank. cbn. now apply trim_nil.
Qed.

Lemma shortcut_skips_validation_witness :
  forallb isWhiteSpace (textContent blankButton) = true
  /\ ToString (dataCategory blankButton) = Some (lit "finance")
  /\ map url (inFlight (snd (toolButtonClick blankButton emptyPage)))
     = [lit "/api/consult?question=%20%20&category=finance"]
  /\ sendMessage (snd (setUserInput (lit "  ") emptyPage))
     = (Normal tt, snd (setUserInput (lit "  ") emptyPage)).
Proof.
  split; [reflexivity|]. split; [reflexivity|].
  destruct (proj2 (shortcut_skips_validation blankButton emptyPage)
              (lit "finance") eq_refl eq_refl) as (_ & Hf & Hs).
  split; [rewrite Hf; reflexivity | exact Hs].
Defined.

(** ** Settlement *)

Lemma isChild_detach (n : nat) (l : list Element) :
  isChild n (detach n l) = false.
Proof.
  induction l as [|e l IH]; simpl.
  - reflexivity.
  - destruct (Nat.eqb (node e) n) eqn:E; simpl.
    + exact IH.
    + now rewrite E.
Qed.

Lemma detach_absent (n : nat) (l : list Element) :
  isChild n l = false -> detach n l = l.
Proof.
  induction l as [|e l IH]; simpl; intros H.
  - reflexivity.
  - apply orb_false_iff in H. destruct H as [He Hl].
    rewrite He. simpl. now rewrite (IH Hl).
Qed.

Lemma detach_idem (n : nat) (l : list Element) :
  detach n (detach n l) = detach n l.
Proof. apply detach_absent, isChild_detach. Qed.

Lemma setChildren_same (w : World) : setChildren (chatMessages w) w = w.
Proof. now destruct w. Qed.

(** The guarded removal never throws, and leaves the container without the
    indicator. *)
Lemma detached_absent (indicator : nat) (w : World) :
  isChild indicator (chatMessages w) = false -> detached indicator w = w.
Proof.
  intros H. unfold detached, removal.
  rewrite H, (detach_absent _ _ H), app_nil_r. now destruct w.
Qed.

Lemma removal_gone (indicator : nat) (w : World) (l : list Element) :
  chatMessages w = detach indicator l -> removal indicator w = [].
Proof.
  intros E. unfold removal. now rewrite E, isChild_detach.
Qed.

Lemma detached_idem (indicator : nat) (w : World) :
  detached indicator (detached indicator w) = detached indicator w.
Proof. apply detached_absent. apply isChild_detach. Qed.

Lemma removeTypingIndicator_eq (indicator : nat) (w : World) :
  removeTypingIndicator indicator w = (Normal tt, detached indicator w).
Proof.
  unfold removeTypingIndicator, bind, parentNode, removeChild. cbv beta.
  destruct (isChild indicator (chatMessages w)) eqn:E; rewrite ?E.
  - unfold detached, removal. now rewrite E.
  - unfold ret. now rewrite (detached_absent _ _ E).
Qed.

Lemma onError_eq (e : JSError) (indicator : nat) (w : World) :
  onError e indicator w
  = (Normal tt,
     rendered 0 (lit "Network error: " ++ errorMessage (host w) e)
       indicator w).
Proof.
  unfold onError, bind. rewrite removeTypingIndicator_eq. reflexivity.
Qed.

Lemma onData_error (data e : JSValue) (t : jsstring) (indicator : nat)
  (w : World) :
  Get data (lit "error") = Normal e -> ToBoolean e = true ->
  ToString e = Some t ->
  onData data indicator w
  = (Normal tt, rendered 0 (lit "Error: " ++ t) indicator w).
Proof.
  intros Hg Hb Ht. unfold onData, bind. rewrite removeTypingIndicator_eq.
  unfold lift. rewrite Hg, Hb, Ht. reflexivity.
Qed.

Lemma onData_answer (data e : JSValue) (a : jsstring) (indicator : nat)
  (w : World) :
  Get data (lit "error") = Normal e -> ToBoolean e = false ->
  Get data (lit "answer") = Normal (JSString a) ->
  onData data indicator w = (Normal tt, rendered 0 a indicator w).
Proof.
  intros Hg Hb Ha. unfold onData, bind. rewrite removeTypingIndicator_eq.
  unfold lift. rewrite Hg, Hb, Ha. reflexivity.
Qed.

(** When the data continuation throws, it has already taken the indicator
    out and may have given up one rendering; the [catch] then renders the
    error. *)
Lemma onError_after_throw (e : JSError) (aborted : nat) (indicator : nat)
  (w : World) :
  onError e indicator
    {| host := host w;
       clockReads := aborted + clockReads w;
       nextNode := aborted + nextNode w;
       userInput := userInput w;
       chatMessages := detach indicator (chatMessages w);
       greetingElement := greetingElement w;
       inFlight := inFlight w;
       history := history w ++ removal indicator w |}
  = (Normal tt,
     rendered aborted (lit "Network error: " ++ errorMessage (host w) e)
       indicator w).
Proof.
  match goal with |- onError _ _ ?x = _ => set (thrown := x) end.
  rewrite onError_eq. unfold rendered.
  rewrite (removal_gone indicator thrown (chatMessages w) eq_refl).
  unfold thrown.
  cbn [host clockReads nextNode userInput chatMessages greetingElement
       inFlight history].
  now rewrite detach_idem, app_nil_r.
Qed.

(** Whatever the outcome, a settlement ends normally, with the indicator
    gone and exactly one message of the assistant appended. *)
Lemma settled_rendered (o : Outcome) (indicator : nat) (w : World) :
  exists aborted text,
    settled o indicator w = (Normal tt, rendered aborted text indicator w).
Proof.
  destruct o as [message | message | data]; cbn [settled].
  - eexists 0%nat, _. apply onError_eq.
  - eexists 0%nat, _. apply onError_eq.
  - unfold catch, onData, bind. rewrite removeTypingIndicator_eq.
    unfold lift.
    destruct (Get data (lit "error")) as [e|err] eqn:Hg.
    + destruct (ToBoolean e) eqn:Hb.
      * unfold liftOr.
        destruct (ToString e) as [t|] eqn:Ht.
        -- eexists 0%nat, _. reflexivity.
        -- eexists 0%nat, _. unfold throw.
           apply (onError_after_throw _ 0 indicator w).
      * assert (Ha : exists a, Get data (lit "answer") = Normal a).
        { destruct data; try discriminate; cbn; eauto.
          destruct (lookupMember _ _); eauto. }
        destruct Ha as [a Ha]. rewrite Ha.
        destruct a; try (eexists 1%nat, _;
                         apply (onError_after_throw _ 1 indicator w)).
        eexists 0%nat, _. reflexivity.
    + eexists 0%nat, _. apply (onError_after_throw _ 0 indicator w).
Qed.

(** A truthy [data.error] always takes the error branch; what is shown
    depends on whether the value can be converted to a string. *)
Lemma settled_truthy_error (data e : JSValue) (indicator : nat) (w : World) :
  Get data (lit "error") = Normal e -> ToBoolean e = true ->
  settled (JsonResolved data) indicator w
  = (Normal tt,
     rendered 0
       (match ToString e with
        | Some text => lit "Error: " ++ text
        | None => lit "Network error: " ++ wording (host w) NoPrimitiveValue
        end)
       indicator w).
Proof.
  intros Hg Hb. cbn [settled].
  destruct (ToString e) as [text|] eqn:Ht.
  - unfold catch. now rewrite (onData_error data e text).
  - unfold catch, onData, bind. rewrite removeTypingIndicator_eq.
    unfold lift. rewrite Hg, Hb, Ht. unfold liftOr, throw.
    change (wording (host w) NoPrimitiveValue)
      with (errorMessage (host w) (Builtin NoPrimitiveValue)).
    exact (onError_after_throw (Builtin NoPrimitiveValue) 0 indicator w).
Qed.

Example waitingPage_shape :
  chatMessages waitingPage
  = [messageElement 0 user (lit "09:41") (lit "Hi"); typingElement 1]
  /\ inFlight waitingPage
     = [{| url := lit "/api/consult?question=Hi&category=general";
           typingIndicator := 1 |}].
Proof. split; reflexivity. Qed.

(** The scenario of the specification: the answer follows the question. *)
Example scenario_answer :
  chatMessages
    (step (Settle 0 (JsonResolved answerBody)) waitingPage)
  = [messageElement 0 user (lit "09:41") (lit "Hi");
     messageElement 2 ai (lit "09:41") (lit "Track receivables weekly.")].
Proof. reflexivity. Qed.

(** C1 (as the code has it).  The continuation tests the value of
    [data.error], not the presence of the member.  For a parsed object:
    with no [error] member, or with one whose value is falsy, and a string
    as [answer], the settlement takes the indicator out and appends exactly
    one message of the assistant, the answer.  With an [error] member whose
    value is truthy the error branch is taken, whatever else the body
    holds: it shows [Error: ] followed by the value converted to a string,
    or, when that conversion throws, the [catch] shows [Network error: ]
    followed by the engine's message. *)
Theorem error_value_decides (members : list (jsstring * JSValue))
  (indicator : nat) (w : World) :
  (lookupMember (lit "error") members = None ->
   forall a, lookupMember (lit "answer") members = Some (JSString a) ->
   settled (JsonResolved (JSObject members)) indicator w
   = (Normal tt, rendered 0 a indicator w))
  /\ (forall e, lookupMember (lit "error") members = Some e ->
      ToBoolean e = false ->
      forall a, lookupMember (lit "answer") members = Some (JSString a) ->
      settled (JsonResolved (JSObject members)) indicator w
      = (Normal tt, rendered 0 a indicator w))
  /\ (forall e, lookupMember (lit "error") members = Some e ->
      ToBoolean e = true ->
      settled (JsonResolved (JSObject members)) indicator w
      = (Normal tt,
         rendered 0
           (match ToString e with
            | Some text => lit "Error: " ++ text
            | None =>
              lit "Network error: " ++ wording (host w) NoPrimitiveValue
            end)
           indicator w)).
Proof.
  repeat split.
  - intros He a Ha. cbn [settled]. unfold catch.
    rewrite (onData_answer _ JSUndefined a); cbn [Get]; try reflexivity.
    + now rewrite He.
    + now rewrite Ha.
  - intros e He Hb a Ha. cbn [settled]. unfold catch.
    rewrite (onData_answer _ e a); cbn [Get]; try reflexivity.
    + now rewrite He.
    + exact Hb.
    + now rewrite Ha.
  - intros e He Hb. apply settled_truthy_error; [|exact Hb].
    cbn [Get]. now rewrite He.
Qed.

Lemma error_value_decides_witness :
  lookupMember (lit "error") answerMembers = None
  /\ lookupMember (lit "answer") answerMembers
     = Some (JSString (lit "Track receivables weekly."))
  /\ settled (JsonResolved answerBody) 1 waitingPage
     = (Normal tt, rendered 0 (lit "Track receivables weekly.") 1 waitingPage)
  /\ lookupMember (lit "error") nullErrorMembers = Some JSNull
  /\ ToBoolean JSNull = false
  /\ lookupMember (lit "answer") nullErrorMembers = Some (JSString (lit "ok"))
  /\ settled (JsonResolved nullErrorBody) 1 waitingPage
     = (Normal tt, rendered 0 (lit "ok") 1 waitingPage)
  /\ lookupMember (lit "error") rateLimitedMembers
     = Some (JSString (lit "rate limited"))
  /\ ToBoolean (JSString (lit "rate limited")) = true
  /\ settled (JsonResolved rateLimitedBody) 1 waitingPage
     = (Normal tt, rendered 0 (lit "Error: rate limited") 1 waitingPage)
  /\ lookupMember (lit "error") opaqueErrorMembers = Some opaqueError
  /\ ToBoolean opaqueError = true
  /\ settled (JsonResolved opaqueErrorBody) 1 waitingPage
     = (Normal tt,
        rendered 0
          (lit "Network error: Cannot convert object to primitive value")
          1 waitingPage).
Proof.
  destruct (error_value_decides answerMembers 1 waitingPage) as (H1 & _).
  destruct (error_value_decides nullErrorMembers 1 waitingPage)
    as (_ & H2 & _).
  destruct (error_value_decides rateLimitedMembers 1 waitingPage)
    as (_ & _ & H3).
  destruct (error_value_decides opaqueErrorMembers 1 waitingPage)
    as (_ & _ & H4).
  do 2 (split; [reflexivity|]).
  split; [exact (H1 eq_refl _ eq_refl)|].
  do 3 (split; [reflexivity|]).
  split; [exact (H2 _ eq_refl eq_refl _ eq_refl)|].
  do 2 (split; [reflexivity|]).
  split; [exact (H3 _ eq_refl eq_refl)|].
  do 2 (split; [reflexivity|]).
  exact (H4 _ eq_refl eq_refl).
Defined.

(** A body that carries an [error] member, here with the value [null]
    beside the answer, is treated as a success: the answer is rendered, not
    an error. *)
Lemma error_member_present_answer_rendered :
  lookupMember (lit "error") nullErrorMembers = Some JSNull
  /\ chatMessages (step (Settle 0 (JsonResolved nullErrorBody)) waitingPage)
     = [messageElement 0 user (lit "09:41") (lit "Hi");
        messageElement 2 ai (lit "09:41") (lit "ok")]
  /\ chatMessages (step (Settle 0 (JsonResolved nullErrorBody)) waitingPage)
     <> [messageElement 0 user (lit "09:41") (lit "Hi");
         messageElement 2 ai (lit "09:41") (lit "Error: null")].
Proof.
  split; [reflexivity|]. split; [reflexivity|].
  vm_compute. discriminate.
Qed.

(** C5 (as the code has it).  When the [error] property of the parsed body
    is truthy (for a string: not empty), the settlement takes the indicator
    out and appends exactly one message of the assistant.  Its text is
    [Error: ] followed by the value converted to a string, which for a
    string is the string itself; when the value cannot be converted (an
    object with a member named [toString]) the conversion throws and the
    text is [Network error: ] followed by the engine's message. *)
Theorem error_payload_rendered (data e : JSValue) (indicator : nat)
  (w : World) :
  Get data (lit "error") = Normal e ->
  ToBoolean e = true ->
  let shown :=
    match ToString e with
    | Some text => lit "Error: " ++ text
    | None => lit "Network error: " ++ wording (host w) NoPrimitiveValue
    end in
  settled (JsonResolved data) indicator w
  = (Normal tt, rendered 0 shown indicator w)
  /\ chatMessages (snd (settled (JsonResolved data) indicator w))
     = detach indicator (chatMessages w)
       ++ [messageElement (nextNode w) ai (clock (host w) (clockReads w))
             (replaceNewlines shown)]
  /\ (forall error, e = JSString error -> shown = lit "Error: " ++ error).
Proof.
  intros Hg Hb shown.
  pose proof (settled_truthy_error data e indicator w Hg Hb) as E.
  fold shown in E. rewrite E.
  split; [reflexivity|]. split; [reflexivity|].
  intros error ->. reflexivity.
Qed.

Lemma error_payload_rendered_witness :
  Get rateLimitedBody (lit "error") = Normal (JSString (lit "rate limited"))
  /\ ToBoolean (JSString (lit "rate limited")) = true
  /\ chatMessages (snd (settled (JsonResolved rateLimitedBody) 1 waitingPage))
     = [messageElement 0 user (lit "09:41") (lit "Hi");
        messageElement 2 ai (lit "09:41") (lit "Error: rate limited")]
  /\ Get opaqueErrorBody (lit "error") = Normal opaqueError
  /\ ToBoolean opaqueError = true
  /\ chatMessages (snd (settled (JsonResolved opaqueErrorBody) 1 waitingPage))
     = [messageElement 0 user (lit "09:41") (lit "Hi");
        messageElement 2 ai (lit "09:41")
          (lit "Network error: Cannot convert object to primitive value")].
Proof.
  split; [reflexivity|]. split; [reflexivity|].
  split.
  - rewrite (proj1 (proj2 (error_payload_rendered rateLimitedBody
                             (JSString (lit "rate limited")) 1 waitingPage
                             eq_refl eq_refl))).
    reflexivity.
  - split; [reflexivity|]. split; [reflexivity|].
    rewrite (proj1 (proj2 (error_payload_rendered opaqueErrorBody
                             opaqueError 1 waitingPage eq_refl eq_refl))).
    reflexivity.
Defined.

(** A body whose [error] member is the empty string does not reach the
    error branch: with no answer beside it, the rendering of the missing
    answer throws and the [catch] reports a network error. *)
Lemma empty_error_not_rendered :
  lookupMember (lit "error") emptyErrorMembers = Some (JSString [])
  /\ chatMessages (step (Settle 0 (JsonResolved emptyErrorBody)) waitingPage)
     = [messageElement 0 user (lit "09:41") (lit "Hi");
        messageElement 3 ai (lit "09:41")
          (lit "Network error: Cannot read properties of undefined (reading 'replace')")]
  /\ chatMessages (step (Settle 0 (JsonResolved emptyErrorBody)) waitingPage)
     <> [messageElement 0 user (lit "09:41") (lit "Hi");
         messageElement 2 ai (lit "09:41") (lit "Error: ")].
Proof.
  split; [reflexivity|]. split; [reflexivity|].
  vm_compute. discriminate.
Qed.

(** C6.  When the network call is rejected, or the body of the response is
    not JSON, the [catch] continuation ends normally: nothing is thrown.
    It takes the typing indicator out of the container and appends exactly
    one message of the assistant, whose text is [Network error: ] followed
    by the message of the failure. *)
Theorem transport_failure_rendered (message : jsstring) (indicator : nat)
  (w : World) :
  settled (FetchRejected message) indicator w
  = (Normal tt, rendered 0 (lit "Network error: " ++ message) indicator w)
  /\ settled (JsonRejected message) indicator w
     = (Normal tt, rendered 0 (lit "Network error: " ++ message) indicator w)
  /\ chatMessages (rendered 0 (lit "Network error: " ++ message) indicator w)
     = detach indicator (chatMessages w)
       ++ [messageElement (nextNode w) ai (clock (host w) (clockReads w))
             (replaceNewlines (lit "Network error: " ++ message))]
  /\ isChild indicator (detach indicator (chatMessages w)) = false.
Proof.
  split; [apply (onError_eq (Rejection message))|].
  split; [apply (onError_eq (Rejection message))|].
  split; [reflexivity | apply isChild_detach].
Qed.

Example scenario_network_error :
  chatMessages
    (step (Settle 0 (FetchRejected (lit "Failed to fetch"))) waitingPage)
  = [messageElement 0 user (lit "09:41") (lit "Hi");
     messageElement 2 ai (lit "09:41") (lit "Network error: Failed to fetch")].
Proof. reflexivity. Qed.

(** The body [null]: the data continuation takes the indicator out and then
    throws on [data.error]; the [catch] finds the indicator detached, skips
    the removal and renders the error. *)
Example scenario_null_body :
  handle (Settle 0 (JsonResolved JSNull)) waitingPage
  = (Normal tt,
     rendered 0
       (lit "Network error: Cannot read properties of null (reading 'error')")
       1 (setInFlight [] waitingPage)).
Proof. reflexivity. Qed.

(** C7.  The removal step of both continuations never throws.  On an
    indicator that is no longer a child of the container it changes
    nothing, where a bare [removeChild] would throw; on one that still is,
    it takes it out; doing it twice is the same as doing it once.  With the
    indicator already detached, the failure continuation and every
    settlement still end normally and only append to the container. *)
Theorem placeholder_removal_idempotent (indicator : nat) (w : World) :
  fst (removeTypingIndicator indicator w) = Normal tt
  /\ (removeTypingIndicator indicator ;; removeTypingIndicator indicator) w
     = removeTypingIndicator indicator w
  /\ (isChild indicator (chatMessages w) = true ->
      chatMessages (snd (removeTypingIndicator indicator w))
      = detach indicator (chatMessages w)
      /\ isChild indicator (detach indicator (chatMessages w)) = false)
  /\ (isChild indicator (chatMessages w) = false ->
      removeTypingIndicator indicator w = (Normal tt, w)
      /\ removeChild indicator w = (Throw (Builtin NotAChild), w)
      /\ (forall e,
            fst (onError e indicator w) = Normal tt
            /\ exists m, chatMessages (snd (onError e indicator w))
                         = chatMessages w ++ [m])
      /\ (forall o,
            fst (settled o indicator w) = Normal tt
            /\ exists m, chatMessages (snd (settled o indicator w))
                         = chatMessages w ++ [m])).
Proof.
  split; [now rewrite removeTypingIndicator_eq|].
  split.
  { unfold bind. rewrite (removeTypingIndicator_eq indicator w).
    rewrite removeTypingIndicator_eq. now rewrite detached_idem. }
  split.
  { intros _. rewrite removeTypingIndicator_eq. split.
    - reflexivity.
    - apply isChild_detach. }
  intros H.
  split.
  { now rewrite removeTypingIndicator_eq, (detached_absent _ _ H). }
  split.
  { unfold removeChild. now rewrite H. }
  split.
  - intros e. rewrite onError_eq. split; [reflexivity|].
    eexists. cbn [snd rendered chatMessages].
    now rewrite (detach_absent _ _ H).
  - intros o. destruct (settled_rendered o indicator w) as (k & t & E).
    rewrite E. split; [reflexivity|].
    eexists. cbn [snd rendered chatMessages].
    now rewrite (detach_absent _ _ H).
Qed.

Lemma placeholder_removal_idempotent_witness :
  isChild 1 (chatMessages emptyPage) = false
  /\ removeTypingIndicator 1 emptyPage = (Normal tt, emptyPage)
  /\ isChild 1 (chatMessages waitingPage) = true
  /\ chatMessages (snd (removeTypingIndicator 1 waitingPage))
     = [messageElement 0 user (lit "09:41") (lit "Hi")].
Proof.
  assert (H0 : isChild 1 (chatMessages emptyPage) = false) by reflexivity.
  assert (H1 : isChild 1 (chatMessages waitingPage) = true) by reflexivity.
  destruct (placeholder_removal_idempotent 1 emptyPage)
    as (_ & _ & _ & Hd).
  destruct (placeholder_removal_idempotent 1 waitingPage)
    as (_ & _ & Ha & _).
  split; [exact H0|]. split; [exact (proj1 (Hd H0))|].
  split; [exact H1|].
  rewrite (proj1 (Ha H1)). reflexivity.
Defined.

(** ** The transcript *)

Lemma Consistent_initial (h : Host) (greeting : option Display) :
  Consistent (initial h greeting).
Proof. split; constructor. Qed.

Lemma Consistent_same (w w' : World) :
  nextNode w' = nextNode w -> chatMessages w' = chatMessages w ->
  inFlight w' = inFlight w -> Consistent w -> Consistent w'.
Proof.
  intros Hn Hc Hf [H1 H2 H3].
  split; rewrite ?Hn, ?Hc, ?Hf; assumption.
Qed.

Lemma Preserves_same (m : M unit) :
  (forall w, nextNode (snd (m w)) = nextNode w
             /\ chatMessages (snd (m w)) = chatMessages w
             /\ inFlight (snd (m w)) = inFlight w) ->
  Preserves m.
Proof.
  intros H w Hw. destruct (H w) as (Hn & Hc & Hf). split.
  - now apply (Consistent_same w).
  - exists []. unfold messages. now rewrite Hc, app_nil_r.
Qed.

Lemma In_removeNth {A} (k : nat) (l : list A) (x : A) :
  In x (removeNth k l) -> In x l.
Proof.
  revert k. induction l as [|y l IH]; intros [|k]; simpl; auto.
  intros [E | H]; [now left | right; eauto].
Qed.

Lemma Forall_removeNth {A} (P : A -> Prop) (k : nat) (l : list A) :
  Forall P l -> Forall P (removeNth k l).
Proof.
  rewrite !Forall_forall. intros H x Hx. eapply H, In_removeNth, Hx.
Qed.

Lemma Forall_detach (P : Element -> Prop) (n : nat) (l : list Element) :
  Forall P l -> Forall P (detach n l).
Proof.
  rewrite !Forall_forall. intros H x Hx.
  apply filter_In in Hx. now apply H.
Qed.

(** Taking out an element whose identity no message has leaves the
    messages as they are. *)
Lemma messages_detach (n : nat) (l : list Element) :
  Forall (fun e => isMessage e = true -> n <> node e) l ->
  filter isMessage (detach n l) = filter isMessage l.
Proof.
  induction 1 as [|e l He Hl IH]; simpl.
  - reflexivity.
  - destruct (Nat.eqb (node e) n) eqn:E; simpl.
    + destruct (isMessage e) eqn:Em.
      * apply Nat.eqb_eq in E. now elim (He eq_refl).
      * exact IH.
    + now rewrite IH.
Qed.

Lemma sendQuestion_world (question : jsstring) (category : JSValue)
  (w : World) :
  exists requests effects,
    snd (sendQuestion question category w)
    = seen effects
        (setInFlight (inFlight w ++ requests) (composed question w))
    /\ Forall (fun r => typingIndicator r = S (nextNode w)) requests.
Proof.
  rewrite sendQuestion_eq.
  assert (E : composed question w
              = seen [] (setInFlight (inFlight w ++ [])
                           (composed question w))).
  { unfold seen, setInFlight, composed. cbn. now rewrite !app_nil_r. }
  destruct (encodeURIComponent question);
    [destruct (ToString category)|].
  - eexists [_], [_]. split; [reflexivity|]. now repeat constructor.
  - exists [], []. split; [exact E | constructor].
  - exists [], []. split; [exact E | constructor].
Qed.

(** A bound on identities survives a growing allocation counter. *)
Ltac weaken H :=
  eapply Forall_impl; [|exact H]; cbv beta; cbn; intros; lia.

Lemma Preserves_sendQuestion (question : jsstring) (category : JSValue) :
  Preserves (sendQuestion question category).
Proof.
  intros w [H1 H2 H3].
  destruct (sendQuestion_world question category w)
    as (reqs & effects & E & Hr).
  rewrite E. split.
  - split; cbn [seen setInFlight composed nextNode chatMessages inFlight].
    + apply Forall_app. split.
      * weaken H1.
      * repeat constructor; cbn; lia.
    + apply Forall_app. split; [weaken H2 | weaken Hr].
    + apply Forall_app. split.
      * rewrite Forall_forall in H1, H3. apply Forall_forall.
        intros e He Hm. apply Forall_app. split.
        -- now apply H3.
        -- specialize (H1 e He). cbv beta in H1. weaken Hr.
      * constructor; [|constructor; [discriminate | constructor]].
        intros _. apply Forall_app. split; [weaken H2 | weaken Hr].
  - eexists [_]. unfold messages.
    cbn [seen setInFlight composed chatMessages].
    rewrite filter_app. reflexivity.
Qed.

Lemma Preserves_sendMessage : Preserves sendMessage.
Proof.
  intros w Hw. unfold sendMessage, bind, getUserInput. cbv beta iota.
  destruct (trim (userInput w)) eqn:E.
  - split; [exact Hw|]. exists []. now rewrite app_nil_r.
  - now apply Preserves_sendQuestion.
Qed.

Lemma Preserves_settle (k : nat) (o : Outcome) : Preserves (handle (Settle k o)).
Proof.
  intros w Hw. cbn [handle].
  destruct (nth_error (inFlight w) k) as [r|] eqn:Hk.
  - destruct (settled_rendered o (typingIndicator r)
                (setInFlight (removeNth k (inFlight w)) w))
      as (aborted & text & E).
    rewrite E. destruct Hw as [H1 H2 H3]. cbn [snd]. split.
    + split; cbn [rendered setInFlight nextNode chatMessages inFlight].
      * apply Forall_app. split.
        -- apply Forall_detach. weaken H1.
        -- repeat constructor; cbn; lia.
      * apply Forall_removeNth. weaken H2.
      * apply Forall_app. split.
        -- apply Forall_detach.
           eapply Forall_impl; [|exact H3]. cbv beta.
           intros e He Hm. now apply Forall_removeNth, He.
        -- constructor; [|constructor].
           intros _. apply Forall_removeNth. weaken H2.
    + eexists [_]. unfold messages.
      cbn [rendered setInFlight chatMessages].
      rewrite filter_app, messages_detach; [reflexivity|].
      apply nth_error_In in Hk.
      eapply Forall_impl; [|exact H3]. cbv beta.
      intros e He Hm. specialize (He Hm).
      rewrite Forall_forall in He. now apply He.
  - split; [exact Hw|]. exists []. now rewrite app_nil_r.
Qed.

Lemma Preserves_handle (ev : Event) : Preserves (handle ev).
Proof.
  destruct ev as [text | | key | button | k o | ].
  - now apply Preserves_same.
  - apply Preserves_sendMessage.
  - cbn [handle]. unfold keypress.
    destruct (jsstring_eqb key (lit "Enter")).
    + apply Preserves_sendMessage.
    + now apply Preserves_same.
  - intros w Hw. cbn [handle]. unfold toolButtonClick, bind.
    cbn [setUserInput].
    match goal with |- context [sendQuestion _ _ ?x] => set (w1 := x) end.
    change (messages w) with (messages w1).
    apply Preserves_sendQuestion.
    now apply (Consistent_same w).
  - apply Preserves_settle.
  - apply Preserves_same. intros w. cbn [handle]. unfold greetingTimeout.
    destruct (greetingElement w); [|now repeat split].
    unfold bind, isChatStarted.
    destruct (Nat.ltb 0 (List.length (chatMessages w))); now repeat split.
Qed.

Lemma Consistent_run (evs : list Event) (w : World) :
  Consistent w -> Consistent (run evs w).
Proof.
  revert w. induction evs as [|ev evs IH]; intros w Hw.
  - exact Hw.
  - apply IH. now apply Preserves_handle.
Qed.

Lemma messages_run (evs : list Event) (w : World) :
  Consistent w -> exists added, messages (run evs w) = messages w ++ added.
Proof.
  revert w. induction evs as [|ev evs IH]; intros w Hw.
  - exists []. now rewrite app_nil_r.
  - destruct (Preserves_handle ev w Hw) as (Hw' & a1 & E1).
    destruct (IH _ Hw') as (a2 & E2).
    exists (a1 ++ a2). cbn [run fold_left]. fold (run evs (step ev w)).
    unfold step at 1. rewrite E2. unfold step. rewrite E1.
    now rewrite app_assoc.
Qed.

(** C8.  On every page the script can reach from its start, whatever
    happens later, the messages already in the transcript stay where they
    are, unchanged, and whatever is new comes after them: the transcript
    only grows at its end.  In particular the settlement of any request in
    flight, whichever its position among them, puts exactly one message of
    the assistant at the end: messages follow the order of settlement, not
    the order in which the requests were issued. *)
Theorem transcript_append_only (h : Host) (greeting : option Display)
  (earlier later : list Event) :
  let w := run earlier (initial h greeting) in
  (exists added, messages (run later w) = messages w ++ added)
  /\ forall k o r,
       nth_error (inFlight w) k = Some r ->
       exists n timestamp text,
         messages (step (Settle k o) w)
         = messages w
           ++ [messageElement n ai timestamp (replaceNewlines text)].
Proof.
  intros w.
  assert (Hw : Consistent w) by apply Consistent_run, Consistent_initial.
  split; [now apply messages_run|].
  intros k o r Hk. unfold step. cbn [handle]. rewrite Hk.
  destruct (settled_rendered o (typingIndicator r)
              (setInFlight (removeNth k (inFlight w)) w))
    as (aborted & text & E).
  rewrite E. do 3 eexists. unfold messages.
  cbn [snd rendered setInFlight chatMessages].
  rewrite filter_app, messages_detach; [reflexivity|].
  destruct Hw as [_ _ H3]. apply nth_error_In in Hk.
  eapply Forall_impl; [|exact H3]. cbv beta.
  intros e He Hm. specialize (He Hm).
  rewrite Forall_forall in He. now apply He.
Qed.

Lemma transcript_append_only_witness :
  nth_error (inFlight waitingPage) 0
  = Some {| url := lit "/api/consult?question=Hi&category=general";
            typingIndicator := 1 |}
  /\ exists n timestamp text,
       messages (step (Settle 0 (JsonResolved answerBody)) waitingPage)
       = messages waitingPage
         ++ [messageElement n ai timestamp (replaceNewlines text)].
Proof.
  split; [reflexivity|].
  exact (proj2 (transcript_append_only sampleHost (Some Visible)
                  [Typed (lit "Hi"); SendClick] [])
           0%nat (JsonResolved answerBody) _ eq_refl).
Defined.

(** The answer to the second question arrives first and is shown first. *)
Example settlement_order :
  chatMessages
    (run [Settle 1 (answered "to B"); Settle 0 (answered "to A")] twoWaiting)
  = [messageElement 0 user (lit "09:41") (lit "A");
     messageElement 2 user (lit "09:41") (lit "B");
     messageElement 4 ai (lit "09:41") (lit "to B");
     messageElement 5 ai (lit "09:41") (lit "to A")].
Proof. reflexivity. Qed.

(** * Further properties of the script *)

(** ** Rendering and settlement on unexpected values *)

Lemma addMessageToChat_throws (message : JSValue) (sender : Sender)
  (w : World) :
  isString message = false ->
  addMessageToChat message sender w
  = (Throw (Builtin (replaceFailure message)),
     {| host := host w;
        clockReads := S (clockReads w);
        nextNode := S (nextNode w);
        userInput := userInput w;
        chatMessages := chatMessages w;
        greetingElement := greetingElement w;
        inFlight := inFlight w;
        history := history w |}).
Proof.
  intros H. destruct message; try discriminate; reflexivity.
Qed.

(** X1.  [addMessageToChat] needs a string.  Given anything else (a missing
    value, [null], a number, a boolean, an array, an object) it throws the
    error of the failed [replace] call before the new element is filled in
    and appended: the container, the text field and the requests in flight
    are as they were. *)
Theorem addMessageToChat_requires_string (message : JSValue)
  (sender : Sender) (w : World) :
  isString message = false ->
  fst (addMessageToChat message sender w)
  = Throw (Builtin (replaceFailure message))
  /\ chatMessages (snd (addMessageToChat message sender w)) = chatMessages w
  /\ userInput (snd (addMessageToChat message sender w)) = userInput w
  /\ inFlight (snd (addMessageToChat message sender w)) = inFlight w
  /\ greetingElement (snd (addMessageToChat message sender w))
     = greetingElement w.
Proof.
  intros H. rewrite (addMessageToChat_throws _ _ _ H).
  repeat split; reflexivity.
Qed.

Lemma addMessageToChat_requires_string_witness :
  isString (JSNumber false (lit "42")) = false
  /\ fst (addMessageToChat (JSNumber false (lit "42")) ai waitingPage)
     = Throw (Builtin (NotAFunction (lit "replace")))
  /\ chatMessages (snd (addMessageToChat (JSNumber false (lit "42")) ai
                          waitingPage))
     = chatMessages waitingPage.
Proof.
  split; [reflexivity|].
  destruct (addMessageToChat_requires_string (JSNumber false (lit "42")) ai
              waitingPage eq_refl) as (He & Hc & _).
  split; [exact He | exact Hc].
Defined.

(** X2.  Whatever settles a request (a rejection, a body that is not JSON,
    or any JSON value at all), the chain ends normally, so no rejection is
    left unhandled; the container loses the typing indicator of the request
    and gains exactly one message of the assistant; the text field, the
    greeting and the other requests in flight are not touched. *)
Theorem settlement_always_renders (o : Outcome) (indicator : nat)
  (w : World) :
  fst (settled o indicator w) = Normal tt
  /\ (exists n timestamp text,
        chatMessages (snd (settled o indicator w))
        = detach indicator (chatMessages w)
          ++ [messageElement n ai timestamp (replaceNewlines text)])
  /\ userInput (snd (settled o indicator w)) = userInput w
  /\ inFlight (snd (settled o indicator w)) = inFlight w
  /\ greetingElement (snd (settled o indicator w)) = greetingElement w
  /\ host (snd (settled o indicator w)) = host w.
Proof.
  destruct (settled_rendered o indicator w) as (aborted & text & E).
  rewrite E. split; [reflexivity|].
  split; [do 3 eexists; reflexivity|].
  repeat split; reflexivity.
Qed.

(** X3.  A body that offers neither a usable error nor a usable answer is
    reported as a network error.  When [data.error] is falsy and
    [data.answer] is not a string (the member is missing, or holds [null],
    a number, ...), the rendering of the answer throws after one element
    has been created and the clock read once; the [catch] then shows
    [Network error: ] followed by the engine's message for that failure.
    When the body itself is [null], reading [data.error] throws and the
    same path shows the message of that failure. *)
Theorem unusable_body_reported (data : JSValue) (indicator : nat)
  (w : World) :
  (forall e a,
     Get data (lit "error") = Normal e -> ToBoolean e = false ->
     Get data (lit "answer") = Normal a -> isString a = false ->
     settled (JsonResolved data) indicator w
     = (Normal tt,
        rendered 1
          (lit "Network error: " ++ wording (host w) (replaceFailure a))
          indicator w))
  /\ (forall kind,
        Get data (lit "error") = Throw (Builtin kind) ->
        settled (JsonResolved data) indicator w
        = (Normal tt,
           rendered 0 (lit "Network error: " ++ wording (host w) kind)
             indicator w)).
Proof.
  split.
  - intros e a He Hb Ha Hs. cbn [settled].
    unfold catch, onData, bind. rewrite removeTypingIndicator_eq.
    unfold lift. rewrite He, Hb, Ha.
    rewrite (addMessageToChat_throws _ _ _ Hs).
    change (wording (host w) (replaceFailure a))
      with (errorMessage (host w) (Builtin (replaceFailure a))).
    exact (onError_after_throw (Builtin (replaceFailure a)) 1 indicator w).
  - intros kind He. cbn [settled].
    unfold catch, onData, bind. rewrite removeTypingIndicator_eq.
    unfold lift. rewrite He.
    change (wording (host w) kind)
      with (errorMessage (host w) (Builtin kind)).
    exact (onError_after_throw (Builtin kind) 0 indicator w).
Qed.

Lemma unusable_body_reported_witness :
  Get emptyObject (lit "error") = Normal JSUndefined
  /\ ToBoolean JSUndefined = false
  /\ Get emptyObject (lit "answer") = Normal JSUndefined
  /\ isString JSUndefined = false
  /\ chatMessages (snd (settled (JsonResolved emptyObject) 1 waitingPage))
     = [messageElement 0 user (lit "09:41") (lit "Hi");
        messageElement 3 ai (lit "09:41")
          (lit "Network error: Cannot read properties of undefined (reading 'replace')")]
  /\ Get JSNull (lit "error")
     = Throw (Builtin (PropertyOfNullish JSNull (lit "error")))
  /\ chatMessages (snd (settled (JsonResolved JSNull) 1 waitingPage))
     = [messageElement 0 user (lit "09:41") (lit "Hi");
        messageElement 2 ai (lit "09:41")
          (lit "Network error: Cannot read properties of null (reading 'error')")].
Proof.
  do 4 (split; [reflexivity|]).
  split.
  - rewrite (proj1 (unusable_body_reported emptyObject 1 waitingPage)
               JSUndefined JSUndefined eq_refl eq_refl eq_refl eq_refl).
    reflexivity.
  - split; [reflexivity|].
    rewrite (proj2 (unusable_body_reported JSNull 1 waitingPage)
               _ eq_refl).
    reflexivity.
Defined.

(** ** The greeting *)

Lemma sendQuestion_frame (question : jsstring) (category : JSValue)
  (w : World) :
  greetingElement (snd (sendQuestion question category w)) = greetingElement w
  /\ userInput (snd (sendQuestion question category w)) = []
  /\ chatMessages (snd (sendQuestion question category w))
     = chatMessages w
       ++ [messageElement (nextNode w) user (clock (host w) (clockReads w))
             (replaceNewlines question);
           typingElement (S (nextNode w))].
Proof.
  destruct (sendQuestion_world question category w)
    as (reqs & effects & E & _).
  rewrite E. repeat split; reflexivity.
Qed.

Lemma step_greeting (ev : Event) (w : World) :
  isGreetingTimer ev = false ->
  greetingElement (step ev w) = greetingElement w.
Proof.
  intros Hev. unfold step.
  assert (Hs : greetingElement (snd (sendMessage w)) = greetingElement w).
  { unfold sendMessage, bind, getUserInput. cbv beta iota.
    destruct (trim (userInput w)); [reflexivity|].
    apply sendQuestion_frame. }
  destruct ev as [text | | key | button | k o | ]; cbn [handle].
  - reflexivity.
  - exact Hs.
  - unfold keypress. destruct (jsstring_eqb key (lit "Enter"));
      [exact Hs | reflexivity].
  - unfold toolButtonClick, bind. cbn [setUserInput].
    now rewrite (proj1 (sendQuestion_frame _ _ _)).
  - destruct (nth_error (inFlight w) k) as [r|]; [|reflexivity].
    destruct (settled_rendered o (typingIndicator r)
                (setInFlight (removeNth k (inFlight w)) w))
      as (aborted & text & E).
    now rewrite E.
  - discriminate.
Qed.

Lemma step_started (ev : Event) (w : World) :
  chatMessages w <> [] -> chatMessages (step ev w) <> [].
Proof.
  intros Hw. unfold step.
  assert (Hq : forall q c w', chatMessages (snd (sendQuestion q c w')) <> []).
  { intros q c w'. rewrite (proj2 (proj2 (sendQuestion_frame q c w'))).
    now destruct (chatMessages w'). }
  assert (Hs : chatMessages (snd (sendMessage w)) <> []).
  { unfold sendMessage, bind, getUserInput. cbv beta iota.
    destruct (trim (userInput w)); [exact Hw | apply Hq]. }
  destruct ev as [text | | key | button | k o | ]; cbn [handle].
  - exact Hw.
  - exact Hs.
  - unfold keypress. destruct (jsstring_eqb key (lit "Enter"));
      [exact Hs | exact Hw].
  - unfold toolButtonClick, bind. cbn [setUserInput]. apply Hq.
  - destruct (nth_error (inFlight w) k) as [r|]; [|exact Hw].
    destruct (settled_rendered o (typingIndicator r)
                (setInFlight (removeNth k (inFlight w)) w))
      as (aborted & text & E).
    rewrite E. cbn [snd rendered chatMessages].
    now destruct (detach _ _).
  - unfold greetingTimeout. destruct (greetingElement w); [|exact Hw].
    unfold bind, isChatStarted.
    destruct (Nat.ltb 0 (List.length (chatMessages w))); exact Hw.
Qed.

Lemma greetingTimeout_cases (w : World) :
  (chatMessages w = [] ->
   greetingElement (step GreetingTimer w)
   = option_map (fun _ => DisplayNone) (greetingElement w))
  /\ (chatMessages w <> [] -> handle GreetingTimer w = (Normal tt, w)).
Proof.
  split.
  - intros He. unfold step. cbn [handle]. unfold greetingTimeout.
    destruct (greetingElement w) eqn:G; [|cbn [snd]; now rewrite G].
    unfold bind, isChatStarted. rewrite He. cbn. now rewrite G.
  - intros Hne. cbn [handle]. unfold greetingTimeout.
    destruct (greetingElement w); [|reflexivity].
    unfold bind, isChatStarted.
    destruct (chatMessages w); [contradiction | reflexivity].
Qed.

(** X4.  The greeting is touched by nothing but the timer.  When the timer
    fires on an empty container the greeting, if the page has one, gets
    [display: none]; when it fires on a container that already has a child
    the page is left exactly as it is; and no other event (typing, sending,
    a tool button, a settlement) changes the greeting at all. *)
Theorem greeting_hidden_only_by_timer (ev : Event) (w : World) :
  (isGreetingTimer ev = false ->
   greetingElement (step ev w) = greetingElement w)
  /\ (chatMessages w = [] ->
      greetingElement (step GreetingTimer w)
      = option_map (fun _ => DisplayNone) (greetingElement w))
  /\ (chatMessages w <> [] -> handle GreetingTimer w = (Normal tt, w)).
Proof.
  split; [apply step_greeting|]. apply greetingTimeout_cases.
Qed.

Lemma greeting_hidden_only_by_timer_witness :
  isGreetingTimer SendClick = false
  /\ greetingElement (step SendClick greetedPage) = Some Visible
  /\ chatMessages emptyPage = []
  /\ greetingElement (step GreetingTimer emptyPage) = Some DisplayNone
  /\ chatMessages waitingPage <> []
  /\ handle GreetingTimer waitingPage = (Normal tt, waitingPage).
Proof.
  destruct (greeting_hidden_only_by_timer SendClick greetedPage)
    as (H1 & _).
  destruct (greeting_hidden_only_by_timer GreetingTimer emptyPage)
    as (_ & H2 & _).
  destruct (greeting_hidden_only_by_timer GreetingTimer waitingPage)
    as (_ & _ & H3).
  split; [reflexivity|]. split; [exact (H1 eq_refl)|].
  split; [reflexivity|]. split; [exact (H2 eq_refl)|].
  assert (Hne : chatMessages waitingPage <> []) by discriminate.
  split; [exact Hne | exact (H3 Hne)].
Defined.

(** X5.  Once the container has a child (a question has been sent), it
    never becomes empty again, so the timer can no longer hide the
    greeting: whatever happens afterwards, the greeting stays as it is.  A
    question sent before the two seconds are over keeps the greeting on
    the page for good. *)
Theorem greeting_kept_once_chat_started (evs : list Event) (w : World) :
  chatMessages w <> [] ->
  chatMessages (run evs w) <> []
  /\ greetingElement (run evs w) = greetingElement w.
Proof.
  revert w. induction evs as [|ev evs IH]; intros w Hw.
  - now split.
  - cbn [run fold_left]. fold (run evs (step ev w)).
    destruct (IH (step ev w) (step_started ev w Hw)) as [Hc Hg].
    split; [exact Hc|]. rewrite Hg.
    destruct (isGreetingTimer ev) eqn:E.
    + destruct ev; try discriminate. unfold step.
      now rewrite (proj2 (greetingTimeout_cases w) Hw).
    + now apply step_greeting.
Qed.

Lemma greeting_kept_once_chat_started_witness :
  chatMessages waitingPage <> []
  /\ greetingElement
       (run [GreetingTimer; Settle 0 (JsonResolved answerBody); GreetingTimer]
          waitingPage)
     = Some Visible.
Proof.
  assert (Hne : chatMessages waitingPage <> []) by discriminate.
  split; [exact Hne|].
  rewrite (proj2 (greeting_kept_once_chat_started
                    [GreetingTimer; Settle 0 (JsonResolved answerBody);
                     GreetingTimer] waitingPage Hne)).
  reflexivity.
Defined.

(** ** The tool buttons *)

(** X7.  A click on a tool button always leaves the text field empty: the
    label is written into it and cleared at once, and whatever the user
    had typed is discarded.  When the label can be URL-encoded, one request
    is issued with the encoded label as the question and the button's
    [data-category] inserted as it is; a button without that attribute
    sends [category=null]. *)
Theorem toolButtonClick_request (button : Button) (w : World) :
  userInput (snd (toolButtonClick button w)) = []
  /\ forall q,
       encodeURIComponent (textContent button) = Some q ->
       (forall c,
          dataCategory button = JSString c ->
          fst (toolButtonClick button w) = Normal tt
          /\ inFlight (snd (toolButtonClick button w))
             = inFlight w
               ++ [{| url := consultUrl q c;
                      typingIndicator := S (nextNode w) |}])
       /\ (dataCategory button = JSNull ->
           fst (toolButtonClick button w) = Normal tt
           /\ inFlight (snd (toolButtonClick button w))
              = inFlight w
                ++ [{| url := consultUrl q (lit "null");
                       typingIndicator := S (nextNode w) |}]).
Proof.
  unfold toolButtonClick, bind. cbn [setUserInput]. split.
  - apply sendQuestion_frame.
  - intros q Hq. rewrite sendQuestion_eq, Hq. split.
    + intros c Hc. rewrite Hc. split; reflexivity.
    + intros Hc. rewrite Hc. split; reflexivity.
Qed.

Lemma toolButtonClick_request_witness :
  encodeURIComponent (textContent taxButton)
  = Some (lit "What%20tax%20deductions%20apply%20to%20me%3F")
  /\ userInput draftPage = lit "my draft"
  /\ userInput (snd (toolButtonClick taxButton draftPage)) = []
  /\ map url (inFlight (snd (toolButtonClick taxButton draftPage)))
     = [lit "/api/consult?question=What%20tax%20deductions%20apply%20to%20me%3F&category=finance"]
  /\ encodeURIComponent (textContent bareButton) = Some (lit "Pricing")
  /\ map url (inFlight (snd (toolButtonClick bareButton draftPage)))
     = [lit "/api/consult?question=Pricing&category=null"].
Proof.
  destruct (toolButtonClick_request taxButton draftPage) as (Hu & Ht).
  destruct (Ht _ eq_refl) as (Hs & _).
  destruct (Hs _ eq_refl) as (_ & Hf).
  destruct (toolButtonClick_request bareButton draftPage) as (_ & Hb).
  destruct (Hb _ eq_refl) as (_ & Hn).
  destruct (Hn eq_refl) as (_ & Hg).
  split; [reflexivity|]. split; [reflexivity|]. split; [exact Hu|].
  split; [rewrite Hf; reflexivity|].
  split; [reflexivity|]. rewrite Hg. reflexivity.
Defined.

(** ** What [trim] leaves of the text field *)

Lemma trimStart_split (s : jsstring) :
  exists pre, s = pre ++ trimStart s /\ forallb isWhiteSpace pre = true.
Proof.
  induction s as [|c r (pre & E & W)]; simpl.
  - now exists [].
  - destruct (isWhiteSpace c) eqn:C.
    + exists (c :: pre). simpl. rewrite C, W. split; [now f_equal | reflexivity].
    + now exists [].
Qed.

Lemma trimStart_clean (s : jsstring) : startsClean (trimStart s) = true.
Proof.
  destruct (trimStart_shape s) as [E | (c & r & E & W)]; rewrite E; simpl.
  - reflexivity.
  - now rewrite W.
Qed.

Lemma trimStart_fixed (s : jsstring) :
  startsClean s = true -> trimStart s = s.
Proof.
  destruct s as [|c r]; simpl; [reflexivity|].
  now destruct (isWhiteSpace c).
Qed.

Lemma trimEnd_split (s : jsstring) :
  exists post, s = trimEnd s ++ post /\ forallb isWhiteSpace post = true.
Proof.
  unfold trimEnd. destruct (trimStart_split (rev s)) as (pre & E & W).
  exists (rev pre). split.
  - rewrite <- (rev_involutive s) at 1. rewrite E at 1. apply rev_app_distr.
  - now rewrite forallb_rev.
Qed.

Lemma startsClean_prefix (a b : jsstring) :
  startsClean (a ++ b) = true -> a <> [] -> startsClean a = true.
Proof. destruct a; [contradiction | intros H _; exact H]. Qed.

(** X8.  The question [sendMessage] works with is the text of the field
    with white space taken off both ends and nothing else changed: the
    text is the question between two runs of white space, the question
    neither begins nor ends with white space, and trimming it again gives
    the same question. *)
Theorem trim_strips_both_ends (s : jsstring) :
  (exists pre post,
     s = pre ++ trim s ++ post
     /\ forallb isWhiteSpace pre = true
     /\ forallb isWhiteSpace post = true)
  /\ startsClean (trim s) = true
  /\ startsClean (rev (trim s)) = true
  /\ trim (trim s) = trim s.
Proof.
  assert (Hend : startsClean (rev (trim s)) = true).
  { unfold trim, trimEnd. rewrite rev_involutive. apply trimStart_clean. }
  assert (Hstart : startsClean (trim s) = true).
  { unfold trim. destruct (trimEnd_split (trimStart s)) as (post & E & _).
    destruct (trimEnd (trimStart s)) as [|c r] eqn:T; [reflexivity|].
    apply (startsClean_prefix (c :: r) post); [|discriminate].
    rewrite <- E. apply trimStart_clean. }
  split.
  - destruct (trimStart_split s) as (pre & E1 & W1).
    destruct (trimEnd_split (trimStart s)) as (post & E2 & W2).
    exists pre, post. unfold trim. now rewrite <- E2.
  - split; [exact Hstart|]. split; [exact Hend|].
    unfold trim at 1. rewrite (trimStart_fixed _ Hstart).
    unfold trimEnd. rewrite (trimStart_fixed _ Hend). apply rev_involutive.
Qed.

Example trim_inner_white_space_kept :
  trim (lit "  cash  flow ") = lit "cash  flow".
Proof. reflexivity. Qed.

(** ** What [encodeURIComponent] puts into the URL *)

Lemma lor_byte (a b : N) : a < 256 -> b < 256 -> N.lor a b < 256.
Proof.
  intros Ha Hb.
  destruct (N.lor a b) as [|p] eqn:E; [lia|].
  rewrite <- E. change 256 with (2 ^ 8).
  apply N.log2_lt_pow2; [rewrite E; lia|].
  rewrite N.log2_lor. apply N.max_lub_lt.
  - destruct a as [|pa]; [cbn; lia|].
    apply N.log2_lt_pow2; [lia | exact Ha].
  - destruct b as [|pb]; [cbn; lia|].
    apply N.log2_lt_pow2; [lia | exact Hb].
Qed.

Lemma shiftr_below (a n bound : N) : a < 2 ^ n * bound -> N.shiftr a n < bound.
Proof.
  intros H. rewrite N.shiftr_div_pow2.
  now apply N.Div0.div_lt_upper_bound.
Qed.

Lemma land_low6 (a : N) : N.land a 0x3F < 256.
Proof.
  change 0x3F with (N.ones 6). rewrite N.land_ones.
  pose proof (N.mod_lt a (2 ^ 6)) as H. change (2 ^ 6) with 64 in *. lia.
Qed.

Lemma land_low4 (a : N) : N.land a 0xF < 16.
Proof.
  change 0xF with (N.ones 4). rewrite N.land_ones.
  pose proof (N.mod_lt a (2 ^ 4)) as H. change (2 ^ 4) with 16 in *. lia.
Qed.

Lemma utf8_bytes (cp : N) :
  cp < 0x110000 -> Forall (fun b => b < 256) (utf8 cp).
Proof.
  intros H. unfold utf8.
  destruct (cp <? 0x80) eqn:E1; [apply N.ltb_lt in E1|].
  { repeat constructor. lia. }
  destruct (cp <? 0x800) eqn:E2; [apply N.ltb_lt in E2|].
  { repeat constructor; apply lor_byte; try lia; try apply land_low6.
    apply shiftr_below. change (2 ^ 6) with 64. lia. }
  destruct (cp <? 0x10000) eqn:E3; [apply N.ltb_lt in E3|].
  { repeat constructor; apply lor_byte; try lia; try apply land_low6.
    apply shiftr_below. change (2 ^ 12) with 4096. lia. }
  repeat constructor; apply lor_byte; try lia; try apply land_low6.
  apply shiftr_below. change (2 ^ 18) with 262144. lia.
Qed.

Lemma hexDigit_unescaped (d : N) : d < 16 -> isUnescaped (hexDigit d) = true.
Proof.
  intros H.
  assert (C : d = 0 \/ d = 1 \/ d = 2 \/ d = 3 \/ d = 4 \/ d = 5 \/ d = 6
              \/ d = 7 \/ d = 8 \/ d = 9 \/ d = 10 \/ d = 11 \/ d = 12
              \/ d = 13 \/ d = 14 \/ d = 15) by lia.
  repeat (destruct C as [C | C]; [subst d; reflexivity|]).
  subst d. reflexivity.
Qed.

Lemma percent_safe (b : N) : b < 256 -> forallb urlSafe (percent b) = true.
Proof.
  intros H. unfold percent. cbn [forallb]. unfold urlSafe at 2 3.
  rewrite (hexDigit_unescaped (N.shiftr b 4)).
  - rewrite (hexDigit_unescaped _ (land_low4 b)). reflexivity.
  - apply shiftr_below. change (2 ^ 4) with 16. lia.
Qed.

Lemma escapeCodePoint_safe (cp : N) :
  cp < 0x110000 -> forallb urlSafe (escapeCodePoint cp) = true.
Proof.
  intros H. unfold escapeCodePoint.
  induction (utf8_bytes cp H) as [|b l Hb _ IH]; cbn [flat_map].
  - reflexivity.
  - now rewrite forallb_app, (percent_safe b Hb), IH.
Qed.

Lemma pairCodePoint_below (lead trail : N) :
  isLeadSurrogate lead = true -> isTrailSurrogate trail = true ->
  pairCodePoint lead trail < 0x110000.
Proof.
  unfold isLeadSurrogate, isTrailSurrogate, pairCodePoint.
  rewrite !andb_true_iff, !N.leb_le. lia.
Qed.

Lemma option_map_Some {A B} (f : A -> B) (o : option A) (b : B) :
  option_map f o = Some b -> exists a, o = Some a /\ b = f a.
Proof.
  destruct o as [a|]; [|discriminate].
  intros E. injection E as <-. now exists a.
Qed.

Lemma encode_safe (s : jsstring) :
  forall q, forallb isCodeUnit s = true ->
            encodeURIComponent s = Some q -> forallb urlSafe q = true.
Proof.
  induction s as [| x | x y l IHl IHc] using list_pair_ind; intros q Hs Hq.
  - injection Hq as <-. reflexivity.
  - cbn in Hs. rewrite andb_true_r in Hs. apply N.ltb_lt in Hs.
    cbn in Hq.
    destruct (isUnescaped x) eqn:U.
    + injection Hq as <-. cbn. unfold urlSafe. now rewrite U.
    + destruct (isTrailSurrogate x); [discriminate|].
      destruct (isLeadSurrogate x); [discriminate|].
      injection Hq as <-. rewrite app_nil_r.
      apply escapeCodePoint_safe. lia.
  - cbn [forallb] in Hs. apply andb_true_iff in Hs. destruct Hs as [Hx Hr].
    apply N.ltb_lt in Hx.
    cbn [encodeURIComponent] in Hq. cbn [encodeURIComponent] in IHc.
    destruct (isUnescaped x) eqn:U.
    + apply option_map_Some in Hq. destruct Hq as (q' & Hq' & ->).
      cbn. unfold urlSafe at 1. rewrite U. exact (IHc q' Hr Hq').
    + destruct (isTrailSurrogate x); [discriminate|].
      destruct (isLeadSurrogate x) eqn:L.
      * destruct (isTrailSurrogate y) eqn:T; [|discriminate].
        apply option_map_Some in Hq. destruct Hq as (q' & Hq' & ->).
        rewrite forallb_app.
        rewrite (escapeCodePoint_safe _ (pairCodePoint_below x y L T)).
        cbn [forallb] in Hr. apply andb_true_iff in Hr.
        exact (IHl q' (proj2 Hr) Hq').
      * apply option_map_Some in Hq. destruct Hq as (q' & Hq' & ->).
        rewrite forallb_app. rewrite escapeCodePoint_safe by lia.
        exact (IHc q' Hr Hq').
Qed.

(** X9.  The question reaches the URL as unreserved characters and percent
    escapes only.  Whatever the user types, the encoded question holds no
    ampersand, equals sign, question mark, hash, plus, slash or space, so
    it cannot end the [question] parameter or start another one. *)
Theorem encoded_question_is_url_safe (s q : jsstring) :
  forallb isCodeUnit s = true ->
  encodeURIComponent s = Some q ->
  forallb urlSafe q = true
  /\ forall c, In c (lit "&=?#+/ ") -> ~ In c q.
Proof.
  intros Hs Hq. pose proof (encode_safe s q Hs Hq) as H.
  split; [exact H|].
  intros c Hc Hin.
  rewrite forallb_forall in H. specialize (H c Hin).
  cbn in Hc.
  repeat (destruct Hc as [<- | Hc]; [discriminate H|]).
  exact Hc.
Qed.

Lemma encoded_question_is_url_safe_witness :
  forallb isCodeUnit (lit "a&category=hr #1") = true
  /\ encodeURIComponent (lit "a&category=hr #1")
     = Some (lit "a%26category%3Dhr%20%231")
  /\ ~ In 0x26 (lit "a%26category%3Dhr%20%231").
Proof.
  split; [reflexivity|]. split; [reflexivity|].
  apply (proj2 (encoded_question_is_url_safe (lit "a&category=hr #1")
                  (lit "a%26category%3Dhr%20%231") eq_refl eq_refl)).
  cbn. now left.
Defined.

Lemma appendEncoded_cons (c : N) (x y : option jsstring) :
  option_map (cons c) (appendEncoded x y)
  = appendEncoded (option_map (cons c) x) y.
Proof. destruct x, y; reflexivity. Qed.

Lemma appendEncoded_app (p : jsstring) (x y : option jsstring) :
  option_map (app p) (appendEncoded x y)
  = appendEncoded (option_map (app p) x) y.
Proof. destruct x, y; cbn; now rewrite ?app_assoc. Qed.

(** X10.  Encoding goes piece by piece: when the first part of a text is
    well-formed on its own (it does not end in the first half of a
    surrogate pair), the encoding of the whole text is the encoding of
    that part followed by the encoding of the rest, and it fails exactly
    when the rest cannot be encoded. *)
Theorem encodeURIComponent_app (a b : jsstring) :
  isWellFormed a = true ->
  encodeURIComponent (a ++ b)
  = appendEncoded (encodeURIComponent a) (encodeURIComponent b).
Proof.
  induction a as [| x | x y l IHl IHc] using list_pair_ind; intros Hw.
  - cbn. now destruct (encodeURIComponent b).
  - cbn in Hw. cbn [app encodeURIComponent].
    destruct (isTrailSurrogate x); [discriminate|].
    destruct (isLeadSurrogate x); [discriminate|].
    destruct (isUnescaped x).
    + destruct b as [|t b']; [reflexivity|].
      now destruct (encodeURIComponent (t :: b')).
    + destruct b as [|t b']; [cbn; now rewrite !app_nil_r|].
      destruct (encodeURIComponent (t :: b')); [|reflexivity].
      cbn. now rewrite app_nil_r.
  - cbn [isWellFormed] in Hw. cbn [isWellFormed] in IHc.
    change ((x :: y :: l) ++ b) with (x :: (y :: l) ++ b).
    change (encodeURIComponent (x :: (y :: l) ++ b))
      with (if isUnescaped x
            then option_map (cons x) (encodeURIComponent ((y :: l) ++ b))
            else if isTrailSurrogate x then None
            else if isLeadSurrogate x
                 then if isTrailSurrogate y
                      then option_map (app (escapeCodePoint (pairCodePoint x y)))
                             (encodeURIComponent (l ++ b))
                      else None
                 else option_map (app (escapeCodePoint x))
                        (encodeURIComponent ((y :: l) ++ b))).
    change (encodeURIComponent (x :: y :: l))
      with (if isUnescaped x
            then option_map (cons x) (encodeURIComponent (y :: l))
            else if isTrailSurrogate x then None
            else if isLeadSurrogate x
                 then if isTrailSurrogate y
                      then option_map (app (escapeCodePoint (pairCodePoint x y)))
                             (encodeURIComponent l)
                      else None
                 else option_map (app (escapeCodePoint x))
                        (encodeURIComponent (y :: l))).
    destruct (isUnescaped x) eqn:U.
    + destruct (unescaped_not_surrogate x U) as [T L]. rewrite T, L in Hw.
      rewrite (IHc Hw). apply appendEncoded_cons.
    + destruct (isTrailSurrogate x); [discriminate|].
      destruct (isLeadSurrogate x).
      * destruct (isTrailSurrogate y); [|discriminate].
        cbn [andb] in Hw. rewrite (IHl Hw). apply appendEncoded_app.
      * rewrite (IHc Hw). apply appendEncoded_app.
Qed.

Lemma encodeURIComponent_app_witness :
  isWellFormed (lit "cash flow") = true
  /\ encodeURIComponent (lit "cash flow" ++ lit "?")
     = Some (lit "cash%20flow" ++ lit "%3F").
Proof.
  split; [reflexivity|].
  rewrite (encodeURIComponent_app (lit "cash flow") (lit "?") eq_refl).
  reflexivity.
Defined.

(** ** Typing indicators and the requests they belong to *)

Lemma sendQuestion_shape (question : jsstring) (category : JSValue)
  (w0 w : World) :
  nextNode w = nextNode w0 -> chatMessages w = chatMessages w0 ->
  inFlight w = inFlight w0 -> host w = host w0 ->
  clockReads w = clockReads w0 ->
  Shape w0 (snd (sendQuestion question category w)).
Proof.
  intros Hn Hc Hf Hh Hk. rewrite sendQuestion_eq.
  apply (shape_submitted w0 _ question
           (match encodeURIComponent question with
            | Some q =>
              match ToString category with
              | Some c => [{| url := consultUrl q c;
                              typingIndicator := S (nextNode w0) |}]
              | None => []
              end
            | None => []
            end));
    destruct (encodeURIComponent question) as [q|];
    try destruct (ToString category) as [c|];
    cbn [snd fetch noted setInFlight composed nextNode chatMessages
         inFlight];
    rewrite ?Hn, ?Hc, ?Hf, ?Hh, ?Hk, ?app_nil_r;
    try reflexivity; try (now left); right; eauto.
Qed.

Lemma step_shape (ev : Event) (w : World) : Shape w (step ev w).
Proof.
  unfold step.
  assert (Hs : Shape w (snd (sendMessage w))).
  { unfold sendMessage, bind, getUserInput. cbv beta iota.
    destruct (trim (userInput w)).
    - now apply shape_same.
    - now apply sendQuestion_shape. }
  destruct ev as [text | | key | button | k o | ]; cbn [handle].
  - now apply shape_same.
  - exact Hs.
  - unfold keypress. destruct (jsstring_eqb key (lit "Enter")).
    + exact Hs.
    + now apply shape_same.
  - unfold toolButtonClick, bind. cbn [setUserInput].
    now apply sendQuestion_shape.
  - destruct (nth_error (inFlight w) k) as [r|] eqn:Hk.
    + destruct (settled_rendered o (typingIndicator r)
                  (setInFlight (removeNth k (inFlight w)) w))
        as (aborted & text & E).
      rewrite E. now eapply (shape_settled w _ k r aborted).
    + now apply shape_same.
  - unfold greetingTimeout. destruct (greetingElement w).
    + unfold bind, isChatStarted.
      destruct (Nat.ltb 0 (List.length (chatMessages w)));
        now apply shape_same.
    + now apply shape_same.
Qed.

Lemma NoDup_snoc {A} (l : list A) (a : A) :
  NoDup l -> ~ In a l -> NoDup (l ++ [a]).
Proof.
  induction 1 as [|x l Hx Hl IH]; cbn; intros Ha.
  - constructor; [tauto | constructor].
  - constructor.
    + rewrite in_app_iff. cbn. intros [H | [H | []]]; [tauto|].
      apply Ha. now left.
    + apply IH. tauto.
Qed.

Lemma NoDup_map_detach (i : nat) (l : list Element) :
  NoDup (map node l) -> NoDup (map node (detach i l)).
Proof.
  induction l as [|e l IH]; cbn; intros H.
  - constructor.
  - inversion H as [|? ? Hn Hl]; subst.
    destruct (negb (Nat.eqb (node e) i)); [|now apply IH].
    cbn. constructor; [|now apply IH].
    intros Hin. apply Hn. rewrite in_map_iff in *.
    destruct Hin as (x & Ex & Hx). exists x. split; [exact Ex|].
    now apply filter_In in Hx.
Qed.

Lemma NoDup_map_removeNth {A B} (f : A -> B) (k : nat) (l : list A) :
  NoDup (map f l) -> NoDup (map f (removeNth k l)).
Proof.
  revert k. induction l as [|x l IH]; intros [|k] H; cbn; try constructor;
    inversion H as [|? ? Hn Hl]; subst; try assumption.
  - intros Hin. apply Hn. rewrite in_map_iff in *.
    destruct Hin as (y & Ey & Hy). exists y. split; [exact Ey|].
    eapply In_removeNth, Hy.
  - now apply IH.
Qed.

Lemma removeNth_other {A B} (f : A -> B) (k : nat) (l : list A) (r r' : A) :
  NoDup (map f l) -> nth_error l k = Some r -> In r' (removeNth k l) ->
  f r' <> f r.
Proof.
  revert k. induction l as [|x l IH]; intros [|k] H Hk Hin; cbn in *;
    try discriminate; inversion H as [|? ? Hn Hl]; subst.
  - injection Hk as ->. intros E. apply Hn. rewrite <- E. now apply in_map.
  - destruct Hin as [-> | Hin].
    + intros E. apply Hn. rewrite E. apply in_map.
      eapply nth_error_In, Hk.
    + eapply IH; eassumption.
Qed.

Lemma In_isChild (e : Element) (l : list Element) :
  In e l -> isChild (node e) l = true.
Proof.
  intros H. unfold isChild. apply existsb_exists.
  exists e. split; [exact H | apply Nat.eqb_refl].
Qed.

Lemma isChild_In (n : nat) (l : list Element) :
  isChild n l = true -> In n (map node l).
Proof.
  unfold isChild. rewrite existsb_exists. intros (e & He & E).
  apply Nat.eqb_eq in E. subst n. now apply in_map.
Qed.

Lemma In_detach (e : Element) (i : nat) (l : list Element) :
  In e l -> node e <> i -> In e (detach i l).
Proof.
  intros H Hn. apply filter_In. split; [exact H|].
  apply negb_true_iff. now apply Nat.eqb_neq.
Qed.

Lemma detach_length (i : nat) (l : list Element) :
  NoDup (map node l) -> isChild i l = true ->
  S (List.length (detach i l)) = List.length l.
Proof.
  induction l as [|e l IH]; cbn; intros H Hc; [discriminate|].
  inversion H as [|? ? Hn Hl]; subst.
  destruct (Nat.eqb (node e) i) eqn:E; cbn.
  - apply Nat.eqb_eq in E. subst i.
    fold (detach (node e) l). rewrite detach_absent; [reflexivity|].
    destruct (isChild (node e) l) eqn:C; [|reflexivity].
    elim Hn. now apply isChild_In.
  - f_equal. now apply IH.
Qed.

Lemma Tracked_indicator_known (w : World) (r : Request) :
  Tracked w -> In r (inFlight w) -> (typingIndicator r < nextNode w)%nat.
Proof.
  intros [_ Hk _ Ha] Hr.
  rewrite Forall_forall in Hk, Ha.
  exact (Hk _ (Ha r Hr)).
Qed.

Lemma Tracked_initial (h : Host) (greeting : option Display) :
  Tracked (initial h greeting).
Proof. split; constructor. Qed.

Lemma Tracked_shape (w w' : World) : Tracked w -> Shape w w' -> Tracked w'.
Proof.
  intros Hw S.
  pose proof (fun r => Tracked_indicator_known w r Hw) as Hind.
  destruct Hw as [Hd Hk Hi Ha].
  destruct S as [Hn Hc Hf
                | question requests Hn Hc Hf Hr
                | k r aborted timestamp text Hr Hn Hc Hf].
  - split; rewrite ?Hn, ?Hc, ?Hf; assumption.
  - assert (Hfresh : forall m, (nextNode w <= m)%nat ->
                               ~ In m (map node (chatMessages w))).
    { intros m Hm Hin. apply in_map_iff in Hin.
      destruct Hin as (e & <- & He).
      rewrite Forall_forall in Hk. specialize (Hk e He). cbv beta in Hk. lia. }
    split; rewrite ?Hn, ?Hc, ?Hf.
    + rewrite map_app. cbn [map messageElement typingElement node].
      change [nextNode w; S (nextNode w)]
        with ([nextNode w] ++ [S (nextNode w)]).
      rewrite app_assoc. apply NoDup_snoc; [apply NoDup_snoc|].
      * exact Hd.
      * now apply Hfresh.
      * rewrite in_app_iff. cbn. intros [H | [H | []]]; [|lia].
        revert H. apply Hfresh. lia.
    + apply Forall_app. split.
      * eapply Forall_impl; [|exact Hk]. cbv beta. intros; lia.
      * repeat constructor; cbn; lia.
    + destruct Hr as [-> | (u & ->)]; [now rewrite app_nil_r|].
      rewrite map_app. cbn [map typingIndicator].
      apply NoDup_snoc; [exact Hi|].
      intros Hin. apply in_map_iff in Hin. destruct Hin as (r & E & Hr).
      specialize (Hind r Hr). lia.
    + apply Forall_app. split.
      * eapply Forall_impl; [|exact Ha]. cbv beta.
        intros r Hr'. apply in_or_app. now left.
      * destruct Hr as [-> | (u & ->)]; constructor; [|constructor].
        cbn [typingIndicator]. apply in_or_app. right. cbn. tauto.
  - assert (Hin : In r (inFlight w)) by (eapply nth_error_In, Hr).
    split; rewrite ?Hn, ?Hc, ?Hf.
    + rewrite map_app. cbn [map messageElement node].
      apply NoDup_snoc; [now apply NoDup_map_detach|].
      intros H. apply in_map_iff in H. destruct H as (e & E & He).
      apply filter_In in He. destruct He as [He _].
      rewrite Forall_forall in Hk. specialize (Hk e He). cbv beta in Hk. lia.
    + apply Forall_app. split.
      * apply Forall_detach.
        eapply Forall_impl; [|exact Hk]. cbv beta. intros; lia.
      * repeat constructor; cbn; lia.
    + now apply NoDup_map_removeNth.
    + apply Forall_forall. intros r' Hr'.
      apply in_or_app. left. apply In_detach.
      * rewrite Forall_forall in Ha. eapply Ha, In_removeNth, Hr'.
      * cbn [typingElement node].
        exact (removeNth_other typingIndicator k _ r r' Hi Hr Hr').
Qed.

Lemma Tracked_run (evs : list Event) (w : World) :
  Tracked w -> Tracked (run evs w).
Proof.
  revert w. induction evs as [|ev evs IH]; intros w Hw; [exact Hw|].
  apply IH. eapply Tracked_shape; [exact Hw | apply step_shape].
Qed.

(** X11.  On every page the script can reach, no two children of the
    container are the same element, no two requests in flight share a
    typing indicator, and every request in flight has its typing indicator
    attached to the container. *)
Theorem requests_keep_their_indicator (h : Host) (greeting : option Display)
  (evs : list Event) :
  let w := run evs (initial h greeting) in
  NoDup (map node (chatMessages w))
  /\ NoDup (map typingIndicator (inFlight w))
  /\ forall r, In r (inFlight w) ->
               In (typingElement (typingIndicator r)) (chatMessages w)
               /\ isChild (typingIndicator r) (chatMessages w) = true.
Proof.
  intros w.
  assert (Hw : Tracked w) by apply Tracked_run, Tracked_initial.
  destruct Hw as [Hd _ Hi Ha].
  split; [exact Hd|]. split; [exact Hi|].
  intros r Hr. rewrite Forall_forall in Ha. specialize (Ha r Hr).
  split; [exact Ha | exact (In_isChild _ _ Ha)].
Qed.

Lemma requests_keep_their_indicator_witness :
  In secondRequest
    (inFlight (run twoQuestions (initial sampleHost (Some Visible))))
  /\ isChild (typingIndicator secondRequest)
       (chatMessages (run twoQuestions (initial sampleHost (Some Visible))))
     = true.
Proof.
  assert (H : In secondRequest
                (inFlight (run twoQuestions
                             (initial sampleHost (Some Visible)))))
    by (apply (nth_error_In _ 1%nat); reflexivity).
  split; [exact H|].
  exact (proj2 (proj2 (proj2 (requests_keep_their_indicator sampleHost
                                (Some Visible) twoQuestions))
                  secondRequest H)).
Defined.

(** X12.  On a page the script can reach, the settlement of a request in
    flight takes that request off the list and its own typing indicator,
    and no other, out of the container: the indicators of the requests
    still in flight stay attached, and the container has as many children
    as before (one indicator out, one message in). *)
Theorem settlement_removes_own_indicator (h : Host)
  (greeting : option Display) (evs : list Event) (k : nat) (o : Outcome)
  (r : Request) :
  nth_error (inFlight (run evs (initial h greeting))) k = Some r ->
  let w := run evs (initial h greeting) in
  let w' := step (Settle k o) w in
  inFlight w' = removeNth k (inFlight w)
  /\ isChild (typingIndicator r) (chatMessages w') = false
  /\ (forall r', In r' (inFlight w') ->
                 isChild (typingIndicator r') (chatMessages w') = true)
  /\ List.length (chatMessages w') = List.length (chatMessages w).
Proof.
  intros Hk. cbv zeta.
  set (w := run evs (initial h greeting)) in *.
  set (w' := step (Settle k o) w).
  assert (Hw : Tracked w) by apply Tracked_run, Tracked_initial.
  assert (Hw' : Tracked w')
    by (eapply Tracked_shape; [exact Hw | apply step_shape]).
  assert (Hr : In r (inFlight w)) by (eapply nth_error_In, Hk).
  pose proof (Tracked_indicator_known w r Hw Hr) as Hlt.
  assert (Hc : isChild (typingIndicator r) (chatMessages w) = true).
  { destruct Hw as [_ _ _ Ha]. rewrite Forall_forall in Ha.
    exact (In_isChild _ _ (Ha r Hr)). }
  assert (Hothers : forall r', In r' (inFlight w') ->
                    isChild (typingIndicator r') (chatMessages w') = true).
  { intros r' Hr'. destruct Hw' as [_ _ _ Ha]. rewrite Forall_forall in Ha.
    exact (In_isChild _ _ (Ha r' Hr')). }
  revert Hothers. unfold w', step. cbn [handle]. rewrite Hk.
  destruct (settled_rendered o (typingIndicator r)
              (setInFlight (removeNth k (inFlight w)) w))
    as (aborted & text & E).
  rewrite E. cbn [snd rendered setInFlight chatMessages inFlight nextNode].
  intros Hothers.
  split; [reflexivity|]. split; [|split; [exact Hothers|]].
  - unfold isChild. rewrite existsb_app.
    fold (isChild (typingIndicator r)
            (detach (typingIndicator r) (chatMessages w))).
    rewrite isChild_detach. cbn.
    rewrite orb_false_r. apply Nat.eqb_neq. lia.
  - rewrite length_app. cbn [List.length].
    rewrite Nat.add_1_r. apply detach_length; [|exact Hc].
    now destruct Hw.
Qed.

Lemma settlement_removes_own_indicator_witness :
  nth_error (inFlight (run twoQuestions (initial sampleHost (Some Visible))))
    1 = Some secondRequest
  /\ isChild (typingIndicator secondRequest)
       (chatMessages
          (step (Settle 1 (answered "to B"))
             (run twoQuestions (initial sampleHost (Some Visible)))))
     = false
  /\ List.length
       (chatMessages
          (step (Settle 1 (answered "to B"))
             (run twoQuestions (initial sampleHost (Some Visible)))))
     = List.length
         (chatMessages (run twoQuestions (initial sampleHost (Some Visible)))).
Proof.
  assert (H : nth_error
                (inFlight (run twoQuestions
                             (initial sampleHost (Some Visible))))
                1 = Some secondRequest) by reflexivity.
  split; [exact H|].
  destruct (settlement_removes_own_indicator sampleHost (Some Visible)
              twoQuestions 1 (answered "to B") secondRequest H)
    as (_ & Hc & _ & Hl).
  split; [exact Hc | exact Hl].
Defined.

Lemma Orphan_shape (n : nat) (w w' : World) :
  Tracked w -> Orphan n w -> Shape w w' -> Orphan n w'.
Proof.
  intros Hw [Ha Hu Hk] S.
  pose proof (fun r => Tracked_indicator_known w r Hw) as Hind.
  destruct S as [Hn Hc Hf
                | question requests Hn Hc Hf Hr
                | k r aborted timestamp text Hr Hn Hc Hf].
  - split; rewrite ?Hn, ?Hc, ?Hf; assumption.
  - split; rewrite ?Hn, ?Hc, ?Hf.
    + apply in_or_app. now left.
    + apply Forall_app. split; [exact Hu|].
      destruct Hr as [-> | (u & ->)]; constructor; [|constructor].
      cbn [typingIndicator]. lia.
    + lia.
  - split; rewrite ?Hn, ?Hc, ?Hf.
    + apply in_or_app. left. apply In_detach; [exact Ha|].
      cbn [typingElement node]. intros E.
      rewrite Forall_forall in Hu.
      apply (Hu r (nth_error_In _ _ Hr)). now symmetry.
    + now apply Forall_removeNth.
    + lia.
Qed.

Lemma Orphan_run (n : nat) (evs : list Event) (w : World) :
  Tracked w -> Orphan n w -> Orphan n (run evs w).
Proof.
  revert w. induction evs as [|ev evs IH]; intros w Hw Ho; [exact Ho|].
  apply IH.
  - eapply Tracked_shape; [exact Hw | apply step_shape].
  - eapply Orphan_shape; [exact Hw | exact Ho | apply step_shape].
Qed.

(** X13.  A question with an unpaired surrogate, submitted on any page the
    script can reach, is shown and gets its typing indicator, and then
    [encodeURIComponent] throws out of [sendQuestion]: no request is
    issued.  As no request has captured that indicator, nothing that
    happens later takes it out of the container. *)
Theorem unsendable_question_leaves_indicator (h : Host)
  (greeting : option Display) (earlier later : list Event)
  (question : jsstring) (category : JSValue) :
  isWellFormed question = false ->
  let w := run earlier (initial h greeting) in
  let w' := snd (sendQuestion question category w) in
  fst (sendQuestion question category w) = Throw (Builtin URIMalformed)
  /\ inFlight w' = inFlight w
  /\ In (typingElement (S (nextNode w))) (chatMessages (run later w')).
Proof.
  intros Hq w w'.
  assert (Hw : Tracked w) by apply Tracked_run, Tracked_initial.
  assert (He : encodeURIComponent question = None).
  { pose proof (encode_accepts question) as H. rewrite Hq in H.
    now destruct (encodeURIComponent question). }
  assert (E : sendQuestion question category w
              = (Throw (Builtin URIMalformed), composed question w))
    by now rewrite sendQuestion_eq, He.
  assert (Hw' : Tracked w').
  { eapply Tracked_shape; [exact Hw|].
    now apply sendQuestion_shape. }
  unfold w' in *. rewrite E in *. cbn [fst snd] in *.
  split; [reflexivity|]. split; [reflexivity|].
  apply (orphan_attached (S (nextNode w))).
  apply Orphan_run; [exact Hw'|].
  split; cbn [composed chatMessages inFlight nextNode].
  - apply in_or_app. right. cbn. tauto.
  - apply Forall_forall. intros r Hr.
    pose proof (Tracked_indicator_known w r Hw Hr). lia.
  - lia.
Qed.

Lemma unsendable_question_leaves_indicator_witness :
  isWellFormed [0xD83D] = false
  /\ inFlight
       (snd (sendQuestion [0xD83D] (JSString (lit "general"))
               (run [] (initial sampleHost (Some Visible)))))
     = inFlight (run [] (initial sampleHost (Some Visible)))
  /\ In (typingElement
           (S (nextNode (run [] (initial sampleHost (Some Visible))))))
       (chatMessages
          (run laterEvents
             (snd (sendQuestion [0xD83D] (JSString (lit "general"))
                     (run [] (initial sampleHost (Some Visible))))))).
Proof.
  split; [reflexivity|].
  destruct (unsendable_question_leaves_indicator sampleHost (Some Visible)
              [] laterEvents [0xD83D] (JSString (lit "general")) eq_refl)
    as (_ & Hf & Hi).
  split; [exact Hf | exact Hi].
Defined.

(** The indicator of the question that could not be sent is still there
    after a later question has been asked and answered. *)
Example orphan_indicator_stays :
  map classList
    (chatMessages
       (run laterEvents
          (snd (sendQuestion [0xD83D] (JSString (lit "general")) emptyPage))))
  = [[lit "message"; lit "user"]; [lit "typing-indicator"];
     [lit "message"; lit "user"]; [lit "message"; lit "ai"]].
Proof. reflexivity. Qed.

(** X14.  The [id] that [addTypingIndicator] gives its element is not
    unique on the page: on every page the script can reach there are at
    least as many children with the id [typing-indicator] as there are
    requests in flight, one for each of them. *)
Theorem indicator_id_shared (h : Host) (greeting : option Display)
  (evs : list Event) :
  let w := run evs (initial h greeting) in
  (List.length (inFlight w)
   <= List.length (filter hasIndicatorId (chatMessages w)))%nat.
Proof.
  intros w.
  assert (Hw : Tracked w) by apply Tracked_run, Tracked_initial.
  destruct Hw as [_ _ Hi Ha].
  rewrite <- (length_map typingIndicator (inFlight w)).
  rewrite <- (length_map node (filter hasIndicatorId (chatMessages w))).
  apply NoDup_incl_length; [exact Hi|].
  intros n Hn. apply in_map_iff in Hn. destruct Hn as (r & <- & Hr).
  rewrite Forall_forall in Ha. specialize (Ha r Hr).
  apply in_map_iff. exists (typingElement (typingIndicator r)).
  split; [reflexivity|]. apply filter_In. split; [exact Ha | reflexivity].
Qed.

Example two_indicators_one_id :
  map node (filter hasIndicatorId (chatMessages twoWaiting)) = [1; 3]%nat.
Proof. reflexivity. Qed.

Lemma replaceNewlines_clean (s : jsstring) :
  forallb (fun c => negb (c =? 10)) (replaceNewlines s) = true.
Proof.
  induction s as [|c r IH]; simpl; [reflexivity|].
  destruct (c =? 10) eqn:E.
  - exact IH.
  - cbn. now rewrite E.
Qed.

(** X15.  What [formatMessage] returns for a string has no LINE FEED left
    in it, so formatting the result again changes nothing; and each line
    feed of the message makes the body three code units longer. *)
Theorem formatMessage_leaves_no_line_feed (s : jsstring) :
  forallb (fun c => negb (c =? 10)) (replaceNewlines s) = true
  /\ replaceNewlines (replaceNewlines s) = replaceNewlines s
  /\ List.length (replaceNewlines s)
     = (List.length s
        + 3 * List.length (filter (fun c => (c =? 10)%N) s))%nat.
Proof.
  split; [apply replaceNewlines_clean|].
  split; [apply replaceNewlines_plain, replaceNewlines_clean|].
  induction s as [|c r IH]; simpl; [reflexivity|].
  destruct (c =? 10); cbn [List.length]; rewrite IH; lia.
Qed.
